(** * askgod: internal/config/struct.go

    A shallow embedding of the configuration loader and of its reload
    goroutine ([ReadConfigFile], [parseConfig], [RegisterHandler]), with
    the properties of the hot-reload cycle stated over it.

    Go strings and byte slices are sequences of bytes: both are [string]
    here (a list of 8-bit [ascii]). *)

From Stdlib Require Import List String Ascii Bool Arith ZArith Lia.
From Stdlib Require Import DecimalString.
Import ListNotations.

Local Open Scope string_scope.
Local Open Scope list_scope.
Local Open Scope nat_scope.

(** ** path/filepath (Go standard library, unix build)

    [ReadConfigFile] computes the watched directory and file name with
    [filepath.Dir] and [filepath.Base].  They are not code of this
    repository; the definitions below follow Go's path/filepath for unix,
    where the separator is the slash, volume names are empty and
    [FromSlash] is the identity. *)
Module filepath.

Definition Separator : ascii := "/"%char.

Definition IsPathSeparator (c : ascii) : bool := Ascii.eqb c Separator.

Definition is_dot (c : ascii) : bool := Ascii.eqb c "."%char.

(** [r == n || IsPathSeparator(path[r])] on the rest of the path from [r]. *)
Definition at_end_or_sep (rest : list ascii) : bool :=
  match rest with
  | [] => true
  | c :: _ => IsPathSeparator c
  end.

(** The [..] case's backtracking:
    [out.w--; for out.w > dotdot && !IsPathSeparator(out.index(out.w)) { out.w-- }].
    The output buffer is kept reversed, so its head is the byte at index
    [out.w - 1]; [c] is the byte at index [out.w], the one just dropped. *)
Fixpoint backtrack (c : ascii) (out : list ascii) (dotdot : nat) : list ascii :=
  match out with
  | [] => []
  | c' :: out' =>
      if (dotdot <? List.length out) && negb (IsPathSeparator c)
      then backtrack c' out' dotdot
      else out
  end.

(** The main loop of [Clean], [for r < n { switch ... }], over the rest of
    the path from [r].  [out] is the (reversed) content of the lazybuf, so
    [out.w] is [length out].  The inner loop that copies a path element,
    [for ; r < n && !IsPathSeparator(path[r]); r++ { out.append(path[r]) }],
    runs as the iterations with [copying = true]: it ends at the end of the
    path or at a separator, which the outer loop then skips. *)
Fixpoint clean_loop (rooted : bool) (path : list ascii) (copying : bool)
    (out : list ascii) (dotdot : nat) : list ascii :=
  match path with
  | [] => out
  | c :: rest =>
      if copying then
        if IsPathSeparator c
        then clean_loop rooted rest false out dotdot
        else clean_loop rooted rest true (c :: out) dotdot
      else if IsPathSeparator c then
        (* empty path element *)
        clean_loop rooted rest false out dotdot
      else if is_dot c && at_end_or_sep rest then
        (* . element *)
        clean_loop rooted rest false out dotdot
      else
        match rest with
        | c1 :: rest' =>
            if is_dot c && is_dot c1 && at_end_or_sep rest' then
              (* .. element: remove to last separator *)
              if dotdot <? List.length out then
                (* can backtrack *)
                match out with
                | last :: out' =>
                    clean_loop rooted rest' false (backtrack last out' dotdot) dotdot
                | [] => clean_loop rooted rest' false out dotdot
                end
              else if negb rooted then
                (* cannot backtrack, but not rooted, so append .. element *)
                let out1 := if 0 <? List.length out then Separator :: out else out in
                let out2 := "."%char :: "."%char :: out1 in
                clean_loop rooted rest' false out2 (List.length out2)
              else clean_loop rooted rest' false out dotdot
            else
              (* real path element: add slash if needed, copy element *)
              let out1 :=
                if (rooted && negb (List.length out =? 1))
                   || (negb rooted && negb (List.length out =? 0))
                then Separator :: out else out in
              clean_loop rooted rest true (c :: out1) dotdot
        | [] =>
            let out1 :=
              if (rooted && negb (List.length out =? 1))
                 || (negb rooted && negb (List.length out =? 0))
              then Separator :: out else out in
            clean_loop rooted rest true (c :: out1) dotdot
        end
  end.

(** [filepath.Clean]. *)
Definition Clean (path : string) : string :=
  match list_ascii_of_string path with
  | [] => "."
  | (c :: _) as p =>
      let rooted := IsPathSeparator c in
      let out :=
        if rooted
        then clean_loop true (tl p) false [Separator] 1
        else clean_loop false p false [] 0 in
      (* Turn empty string into "." *)
      let out := match out with [] => ["."%char] | _ => out end in
      string_of_list_ascii (rev out)
  end.

(** [for i >= 0 && !IsPathSeparator(path[i]) { i-- }] on the reversed
    path: what is left is [path[:i+1]] reversed. *)
Fixpoint drop_last_element (rpath : list ascii) : list ascii :=
  match rpath with
  | [] => []
  | c :: rpath' => if IsPathSeparator c then rpath else drop_last_element rpath'
  end.

(** [filepath.Dir]: all but the last element of [path], cleaned. *)
Definition Dir (path : string) : string :=
  Clean (string_of_list_ascii
           (rev (drop_last_element (rev (list_ascii_of_string path))))).

(** Strip trailing slashes (on the reversed path). *)
Fixpoint strip_trailing (rpath : list ascii) : list ascii :=
  match rpath with
  | [] => []
  | c :: rpath' => if IsPathSeparator c then strip_trailing rpath' else rpath
  end.

(** The last element (on the reversed path): the bytes after the last
    separator, or the whole path when it has none. *)
Fixpoint last_element (rpath : list ascii) : list ascii :=
  match rpath with
  | [] => []
  | c :: rpath' => if IsPathSeparator c then [] else c :: last_element rpath'
  end.

(** [filepath.Base]. *)
Definition Base (path : string) : string :=
  match path with
  | EmptyString => "."
  | _ =>
      let p := strip_trailing (rev (list_ascii_of_string path)) in
      match last_element p with
      | [] => String Separator EmptyString (* it had only slashes *)
      | e => string_of_list_ascii (rev e)
      end
  end.

End filepath.

(** A file name proper: not empty, and without a separator. *)
Definition plain_name (name : string) : bool :=
  negb (name =? "")%string
  && forallb (fun c => negb (filepath.IsPathSeparator c))
       (list_ascii_of_string name).

(** A byte of a file name. *)
Definition not_separator (c : ascii) : bool := negb (filepath.IsPathSeparator c).

(** ** gopkg.in/yaml.v2 and the document

    The configuration document is the embedded [*api.Config] of [Config];
    its schema is owned by the api package.  [Doc] is the state of that
    pointer field (nil, or the value it points to), and the yaml library is
    an interface over it: what a call leaves in its target, and the error
    it returns.  yaml.v2 decodes in place: "if one or more values cannot be
    decoded due to a type mismatches, decoding continues partially until
    the end of the YAML content, and a *yaml.TypeError is returned". *)
Class Document (Doc : Type) : Type := {
  (** the zero value of the field, a nil pointer *)
  nil : Doc;
  (** [yaml.Unmarshal(content, &conf.Config)]: the field after the call *)
  yaml_Unmarshal_addr : string -> Doc -> Doc * option string;
  (** [yaml.Unmarshal(content, conf.Config)]: the field after the call *)
  yaml_Unmarshal : string -> Doc -> Doc * option string;
  (** [yaml.Marshal(conf.Config)]; both call sites drop its error *)
  yaml_Marshal : Doc -> string
}.

(** ** The environment *)

(** What the file system and fsnotify answer at one moment. *)
Record World : Type := {
  (** utils.PathExists, of package internal/utils *)
  PathExists : string -> bool;
  (** ioutil.ReadFile: the content, or the error's message *)
  ReadFile : string -> string + string;
  (** the error of fsnotify.NewWatcher, if any *)
  NewWatcher : option string;
  (** the error of watcher.Add, if any *)
  watcher_Add : string -> option string
}.

(** fsnotify.Event *)
Record Event : Type := { Name : string; Op : nat }.

(** [log15.Ctx]: the key-value context of a log line. *)
Definition Ctx : Type := list (string * string).

(** [time.Second], a [time.Duration] in nanoseconds. *)
Definition Second : Z := 1000000000%Z.

Section Config.

Context {Doc Handler Logger : Type} `{!Document Doc}.

(** [Config]: the internal view of the configuration.  A handler is a Go
    function value (a func taking a [*Config]).  It is opaque here:
    calling it is an effect that records the store it was given, and it
    does not write to the store. *)
Record Config : Type := {
  api_Config : Doc;
  logger : Logger;
  handlers : list Handler
}.

(** The variables the monitoring goroutine's closure captures besides
    [conf] and [logger]. *)
Record Monitor : Type := {
  configPath : string;
  pathDir : string;
  pathBase : string
}.

(** The monitor the loader starts for a path. *)
Definition monitor_of (path : string) : Monitor :=
  {| configPath := path; pathDir := filepath.Dir path;
     pathBase := filepath.Base path |}.

(** What the code does to the outside, in program order. *)
Inductive Effect : Type :=
| Probe (path : string)
| Read (path : string)
| Info (msg : string) (ctx : Ctx)
| Error (msg : string) (ctx : Ctx)
| Sleep (d : Z)
| Watcher_new
| Watcher_add (dir : string)
| Go (m : Monitor)
| Call (h : Handler) (conf : Config).

(** A computation that reads the environment and emits effects. *)
Definition Proc (A : Type) : Type := World -> A * list Effect.

Definition ret {A} (a : A) : Proc A := fun _ => (a, []).

Definition bind {A B} (m : Proc A) (k : A -> Proc B) : Proc B :=
  fun w => let (a, t1) := m w in let (b, t2) := k a w in (b, t1 ++ t2).

Definition emit (e : Effect) : Proc unit := fun _ => (tt, [e]).

Notation "x <- m ;; k" := (bind m (fun x => k))
  (at level 61, m at next level, right associativity).
Notation "m ;;; k" := (bind m (fun _ => k))
  (at level 61, right associativity).

Definition utils_PathExists (path : string) : Proc bool :=
  fun w => (PathExists w path, [Probe path]).

Definition ioutil_ReadFile (path : string) : Proc (string + string) :=
  fun w => (ReadFile w path, [Read path]).

Definition fsnotify_NewWatcher : Proc (option string) :=
  fun w => (NewWatcher w, [Watcher_new]).

Definition fsnotify_Add (dir : string) : Proc (option string) :=
  fun w => (watcher_Add w dir, [Watcher_add dir]).

(** [for _, handler := range conf.handlers { handler(&conf) }] *)
Fixpoint call_handlers (hs : list Handler) (conf : Config) : Proc unit :=
  match hs with
  | [] => ret tt
  | handler :: hs' => emit (Call handler conf) ;;; call_handlers hs' conf
  end.

Definition set_api_Config (conf : Config) (d : Doc) : Config :=
  {| api_Config := d; logger := logger conf; handlers := handlers conf |}.

(** [RegisterHandler]: append, and return a nil error. *)
Definition RegisterHandler (c : Config) (handler : Handler)
    : Config * option string :=
  ({| api_Config := api_Config c; logger := logger c;
      handlers := handlers c ++ [handler] |}, None).

(** [parseConfig(configPath, conf)].  [unmarshal] is [yaml.Unmarshal] on
    the target [conf] stands for, and [target] the target's value at the
    call; the result is the target's value after it and the error. *)
Definition parseConfig (configPath : string)
    (unmarshal : string -> Doc -> Doc * option string) (target : Doc)
    : Proc (Doc * option string) :=
  r <- ioutil_ReadFile configPath ;;
  match r with
  | inr err => ret (target, Some ("Failed to read file content: " ++ err)%string)
  | inl content =>
      let (target', err) := unmarshal content target in
      match err with
      | Some err => ret (target', Some ("Failed to parse yaml: " ++ err)%string)
      | None => ret (target', None)
      end
  end.

(** [ReadConfigFile]: the pair it returns, [(nil, err)] or [(&conf, nil)].
    Starting the goroutine is the effect [Go]. *)
Definition ReadConfigFile (configPath : string) (monitor : bool)
    (logger : Logger) : Proc (option Config * option string) :=
  found <- utils_PathExists configPath ;;
  if negb found then
    ret (None, Some ("The configuration file doesn't exist: " ++ configPath)%string)
  else
    emit (Info "Parsing configuration" [("path", configPath)]) ;;;
    let conf := {| api_Config := nil; logger := logger; handlers := [] |} in
    r <- parseConfig configPath yaml_Unmarshal_addr (api_Config conf) ;;
    let conf := set_api_Config conf (fst r) in
    match snd r with
    | Some err => ret (None, Some err)
    | None =>
        if monitor then
          emit (Info "Setting up configuration watch" [("path", configPath)]) ;;;
          err <- fsnotify_NewWatcher ;;
          match err with
          | Some err => ret (None, Some ("Unable to setup fsnotify: " ++ err)%string)
          | None =>
              err <- fsnotify_Add (filepath.Dir configPath) ;;
              match err with
              | Some err =>
                  ret (None, Some ("Unable to setup fsnotify watch: " ++ err)%string)
              | None =>
                  let pathDir := filepath.Dir configPath in
                  let pathDir := if (pathDir =? "")%string then "./" else pathDir in
                  let pathBase := filepath.Base configPath in
                  emit (Go {| configPath := configPath; pathDir := pathDir;
                              pathBase := pathBase |}) ;;;
                  ret (Some conf, None)
              end
          end
        else ret (Some conf, None)
    end.

(** What one [select] of the goroutine receives. *)
Inductive Select : Type :=
| case_Event (ev : Event)
| case_Error (err : string).

(** [fmt.Sprintf("%s/%s", pathDir, pathBase)] *)
Definition watched (m : Monitor) : string :=
  (pathDir m ++ "/" ++ pathBase m)%string.

(** One iteration of the goroutine's [for { select { ... } }]: the store
    after it. [continue] is returning. *)
Definition iteration (m : Monitor) (conf : Config) (s : Select) : Proc Config :=
  match s with
  | case_Event ev =>
      if negb (Name ev =? watched m)%string then ret conf
      else
        (* Store the old config for comparison *)
        let oldData := yaml_Marshal (api_Config conf) in
        (* Wait for 1s for ownership changes *)
        emit (Sleep Second) ;;;
        (* Parse the new config *)
        r <- parseConfig (configPath m) yaml_Unmarshal (api_Config conf) ;;
        let conf := set_api_Config conf (fst r) in
        match snd r with
        | Some err =>
            emit (Error "Failed to read the new configuration"
                    [("path", configPath m); ("error", err)])
        | None => ret tt
        end ;;;
        (* Check if something changed *)
        let newData := yaml_Marshal (api_Config conf) in
        if (oldData =? newData)%string then ret conf
        else
          emit (Info "Configuration file changed, reloading"
                  [("path", configPath m)]) ;;;
          call_handlers (handlers conf) conf ;;;
          ret conf
  | case_Error err =>
      emit (Error "Got bad file notification" [("error", err)]) ;;;
      ret conf
  end.

(** The log line of a failed reload, if the reload failed. *)
Definition failure_log (m : Monitor) (err : option string) : list Effect :=
  match err with
  | Some err =>
      [Error "Failed to read the new configuration"
         [("path", configPath m); ("error", err)]]
  | None => []
  end.

(** The notification of a cycle, if the two encodings differ. *)
Definition notification (m : Monitor) (old : Doc) (conf : Config)
    : list Effect :=
  if (yaml_Marshal old =? yaml_Marshal (api_Config conf))%string then []
  else Info "Configuration file changed, reloading"
         [("path", configPath m)]
       :: map (fun h => Call h conf) (handlers conf).

(** What happens to the store while the goroutine runs: the goroutine
    receives from the watcher, in the world of that moment, or another
    goroutine registers a handler between two iterations. *)
Inductive Step : Type :=
| Recv (s : Select) (w : World)
| Registers (handler : Handler).

(** The goroutine over a finite prefix of its schedule: the store and the
    effects, in order. *)
Fixpoint run (m : Monitor) (conf : Config) (steps : list Step)
    : Config * list Effect :=
  match steps with
  | [] => (conf, [])
  | Recv s w :: steps' =>
      let (conf', t1) := iteration m conf s w in
      let (conf'', t2) := run m conf' steps' in
      (conf'', t1 ++ t2)
  | Registers handler :: steps' =>
      run m (fst (RegisterHandler conf handler)) steps'
  end.

(** The handler calls of a trace, in order. *)
Fixpoint calls (t : list Effect) : list (Handler * Config) :=
  match t with
  | [] => []
  | Call h conf :: t' => (h, conf) :: calls t'
  | _ :: t' => calls t'
  end.

(** The pauses of a trace, in order. *)
Fixpoint sleeps (t : list Effect) : list Z :=
  match t with
  | [] => []
  | Sleep d :: t' => d :: sleeps t'
  | _ :: t' => sleeps t'
  end.

(** The contents the accepted events' cycles read, in order: what the
    reloads decode. *)
Fixpoint decoded (m : Monitor) (steps : list Step) : list string :=
  match steps with
  | [] => []
  | Recv (case_Event ev) w :: steps' =>
      if (Name ev =? watched m)%string then
        match ReadFile w (configPath m) with
        | inl content => content :: decoded m steps'
        | inr _ => decoded m steps'
        end
      else decoded m steps'
  | _ :: steps' => decoded m steps'
  end.

(** How many of the steps are events the filter accepts. *)
Fixpoint accepted (m : Monitor) (steps : list Step) : nat :=
  match steps with
  | [] => 0
  | Recv (case_Event ev) _ :: steps' =>
      if (Name ev =? watched m)%string then S (accepted m steps')
      else accepted m steps'
  | _ :: steps' => accepted m steps'
  end.

(** Several calls of [RegisterHandler], one after the other. *)
Definition register_all (conf : Config) (hs : list Handler) : Config :=
  fold_left (fun c h => fst (RegisterHandler c h)) hs conf.

(** The handlers the steps register, in order. *)
Fixpoint registered (steps : list Step) : list Handler :=
  match steps with
  | [] => []
  | Registers h :: steps' => h :: registered steps'
  | Recv _ _ :: steps' => registered steps'
  end.

(** An event the filter discards. *)
Definition discarded (m : Monitor) (st : Step) : bool :=
  match st with
  | Recv (case_Event ev) _ => negb (Name ev =? watched m)%string
  | _ => false
  end.

(** A step that can reach the store or a handler: an accepted event or a
    registration. *)
Definition relevant (m : Monitor) (st : Step) : bool :=
  match st with
  | Recv (case_Event ev) _ => (Name ev =? watched m)%string
  | Recv (case_Error _) _ => false
  | Registers _ => true
  end.

End Config.

Arguments Config : clear implicits.
Arguments Effect : clear implicits.
Arguments Proc : clear implicits.
Arguments Step : clear implicits.

(** ** A small document

    An instance of [Document] to evaluate the loader on: the document is a
    struct of two unsigned fields with the yaml keys a and b, as in
    [struct { A uint; B uint }], and the field [*api.Config] is [None]
    when nil.  The decoder follows yaml.v2 on block mappings of plain
    scalars, one "key: value" per line: the content is parsed as a whole
    before anything is written, so a line without ": " fails the call and
    leaves the target as it was; a content with no entry has no document
    node and leaves the target as it was; a nil target reached through the
    address of the field is allocated; a key the struct does not have is
    skipped; a value that is not a decimal number (written without leading
    zero) is a type error that is collected while the other entries are
    still decoded.  Through a nil pointer itself yaml.v2 cannot allocate
    and panics; the instance returns the panic's message as the error.
    The instance is a fragment: yaml.v2 also decodes scalars that are
    errors here (an empty value, a number with a leading zero, a
    float), and its panic ends the process.  Nothing below evaluates the
    instance on such a value or through a nil pointer with entries. *)
Module MiniYaml.

Record Cfg : Type := { a : nat; b : nat }.

Definition LF : ascii := "010"%char.

Fixpoint split_lines (s : string) : list string :=
  match s with
  | EmptyString => [EmptyString]
  | String c s' =>
      if Ascii.eqb c LF then EmptyString :: split_lines s'
      else match split_lines s' with
           | l :: ls => String c l :: ls
           | [] => [String c EmptyString]
           end
  end.

(** Split a line at its first ": ". *)
Fixpoint key_value (l : string) : option (string * string) :=
  match l with
  | EmptyString => None
  | String c l' =>
      if Ascii.eqb c ":"%char && prefix " " l' then Some (EmptyString, substring 1 (String.length l') l')
      else match key_value l' with
           | Some (k, v) => Some (String c k, v)
           | None => None
           end
  end.

(** The entries of a content, or [None] on a syntax error. *)
Fixpoint entries (ls : list string) : option (list (string * string)) :=
  match ls with
  | [] => Some []
  | l :: ls' =>
      if (l =? "")%string then entries ls'
      else match key_value l, entries ls' with
           | Some kv, Some es => Some (kv :: es)
           | _, _ => None
           end
  end.

(** A plain scalar as an unsigned number. *)
Definition scalar (v : string) : option nat :=
  match v with
  | EmptyString => None
  | String c v' =>
      if Ascii.eqb c "0"%char && negb (v' =? "")%string then None
      else option_map Nat.of_uint (NilEmpty.uint_of_string v)
  end.

Definition type_error (v : string) : string :=
  ("  cannot unmarshal !!str `" ++ v ++ "` into uint")%string.

(** Decode the entries into the struct, collecting the type errors. *)
Fixpoint set_fields (es : list (string * string)) (c : Cfg)
    : Cfg * list string :=
  match es with
  | [] => (c, [])
  | (k, v) :: es' =>
      if (k =? "a")%string then
        match scalar v with
        | Some n => set_fields es' {| a := n; b := b c |}
        | None => let (c', errs) := set_fields es' c in (c', type_error v :: errs)
        end
      else if (k =? "b")%string then
        match scalar v with
        | Some n => set_fields es' {| a := a c; b := n |}
        | None => let (c', errs) := set_fields es' c in (c', type_error v :: errs)
        end
      else set_fields es' c
  end.

Definition decode_into (es : list (string * string)) (c : Cfg)
    : option Cfg * option string :=
  let (c', errs) := set_fields es c in
  (Some c',
   match errs with
   | [] => None
   | _ => Some (String.concat (String LF EmptyString)
                  ("yaml: unmarshal errors:"%string :: errs))
   end).

Definition syntax_error : string := "yaml: could not find expected ':'".

Definition Unmarshal_addr (content : string) (p : option Cfg)
    : option Cfg * option string :=
  match entries (split_lines content) with
  | None => (p, Some syntax_error)
  | Some [] => (p, None)
  | Some es =>
      decode_into es (match p with Some c => c | None => {| a := 0; b := 0 |} end)
  end.

Definition Unmarshal (content : string) (p : option Cfg)
    : option Cfg * option string :=
  match entries (split_lines content) with
  | None => (p, Some syntax_error)
  | Some [] => (p, None)
  | Some es =>
      match p with
      | Some c => decode_into es c
      | None => (None, Some "reflect: reflect.Value.Set using unaddressable value"%string)
      end
  end.

Definition decimal (n : nat) : string := NilZero.string_of_uint (Nat.to_uint n).

Definition Marshal (p : option Cfg) : string :=
  match p with
  | None => String.append "null" (String LF EmptyString)
  | Some c =>
      ("a: " ++ decimal (a c) ++ String LF EmptyString
       ++ "b: " ++ decimal (b c) ++ String LF EmptyString)%string
  end.

Definition document : Document (option Cfg) :=
  {| nil := None;
     yaml_Unmarshal_addr := Unmarshal_addr;
     yaml_Unmarshal := Unmarshal;
     yaml_Marshal := Marshal |}.

(** A world in which the file is there with the given content and the
    watch can be set up. *)
Definition file (content : string) : World :=
  {| PathExists := fun _ => true;
     ReadFile := fun _ => inl content;
     NewWatcher := None;
     watcher_Add := fun _ => None |}.

(** A world in which the file is gone. *)
Definition no_file : World :=
  {| PathExists := fun _ => false;
     ReadFile := fun _ => inr "no such file or directory"%string;
     NewWatcher := None;
     watcher_Add := fun _ => None |}.

(** A world in which the file is there but no watcher can be made. *)
Definition no_watcher (content : string) : World :=
  {| PathExists := fun _ => true;
     ReadFile := fun _ => inl content;
     NewWatcher := Some "too many open files"%string;
     watcher_Add := fun _ => None |}.

(** A world in which the file is there but its directory cannot be watched. *)
Definition no_watch (content : string) : World :=
  {| PathExists := fun _ => true;
     ReadFile := fun _ => inl content;
     NewWatcher := None;
     watcher_Add := fun _ => Some "no space left on device"%string |}.

Definition line (l : string) : string := (l ++ String LF EmptyString)%string.

(** Contents used below. *)
Definition doc_1_2 : string := (line "a: 1" ++ line "b: 2")%string.
Definition doc_5 : string := line "a: 5".
Definition doc_5_x : string := (line "a: 5" ++ line "b: x")%string.
Definition doc_5_7 : string := (line "a: 5" ++ line "b: 7")%string.

(** The path used below, the monitor [ReadConfigFile] starts for it, and
    the store it returns for [doc_1_2], with two handlers registered. *)
Definition path : string := "/etc/askgod/config.yaml".

Definition monitor : Monitor :=
  {| configPath := path; pathDir := "/etc/askgod"; pathBase := "config.yaml" |}.

Definition store : Config (option Cfg) nat unit :=
  {| api_Config := Some {| a := 1; b := 2 |}; logger := tt; handlers := [10; 20] |}.

Definition event : Event := {| Name := "/etc/askgod/config.yaml"; Op := 2 |}.

(** One iteration of the goroutine on [event], from a given store. *)
Definition iter (conf : Config (option Cfg) nat unit) (w : World)
    : Config (option Cfg) nat unit * list (Effect (option Cfg) nat unit) :=
  iteration (Document0 := document) monitor conf (case_Event event) w.

Definition doc_of (x y : nat) : option Cfg := Some {| a := x; b := y |}.

(** A world in which the file is there but cannot be read. *)
Definition unreadable : World :=
  {| PathExists := fun _ => true;
     ReadFile := fun _ => inr "permission denied"%string;
     NewWatcher := None;
     watcher_Add := fun _ => None |}.

End MiniYaml.

(** ** Evaluation on concrete inputs *)

Example Clean_ex1 : filepath.Clean "a//b/./c/.." = "a/b". Proof. reflexivity. Qed.
Example Clean_ex2 : filepath.Clean "/../a/../.." = "/". Proof. reflexivity. Qed.
Example Clean_ex3 : filepath.Clean "../../a/b/../../.." = "../../..". Proof. reflexivity. Qed.
Example Clean_ex4 : filepath.Clean "abc/def/../../.." = "..". Proof. reflexivity. Qed.
Example Clean_ex5 : filepath.Clean "/abc/def/../../.." = "/". Proof. reflexivity. Qed.
Example Clean_ex6 : filepath.Clean "abc/./../def" = "def". Proof. reflexivity. Qed.
Example Clean_ex7 : filepath.Clean "abc//./../def" = "def". Proof. reflexivity. Qed.
Example Clean_ex8 : filepath.Clean "abc/../../././../def" = "../../def". Proof. reflexivity. Qed.
Example Clean_ex9 : filepath.Clean "..a/.b/c.." = "..a/.b/c..". Proof. reflexivity. Qed.
Example Dir_ex1 : filepath.Dir "config.yaml" = ".". Proof. reflexivity. Qed.
Example Dir_ex2 : filepath.Dir "/etc/askgod/config.yaml" = "/etc/askgod". Proof. reflexivity. Qed.
Example Dir_ex3 : filepath.Dir "/config.yaml" = "/". Proof. reflexivity. Qed.
Example Dir_ex4 : filepath.Dir "" = ".". Proof. reflexivity. Qed.
Example Dir_ex5 : filepath.Dir "a/b/" = "a/b". Proof. reflexivity. Qed.
Example Base_ex1 : filepath.Base "/etc/askgod/config.yaml" = "config.yaml". Proof. reflexivity. Qed.
Example Base_ex2 : filepath.Base "a/b///" = "b". Proof. reflexivity. Qed.
Example Base_ex3 : filepath.Base "///" = "/". Proof. reflexivity. Qed.
Example Base_ex4 : filepath.Base "" = ".". Proof. reflexivity. Qed.

Example MiniYaml_load :
  @ReadConfigFile _ nat unit MiniYaml.document MiniYaml.path true tt
    (MiniYaml.file MiniYaml.doc_1_2)
  = ((Some {| api_Config := Some {| MiniYaml.a := 1; MiniYaml.b := 2 |};
              logger := tt; handlers := [] |}, None),
     [Probe MiniYaml.path;
      Info "Parsing configuration" [("path"%string, MiniYaml.path)];
      Read MiniYaml.path;
      Info "Setting up configuration watch" [("path"%string, MiniYaml.path)];
      Watcher_new; Watcher_add "/etc/askgod"; Go MiniYaml.monitor]).
Proof. reflexivity. Qed.

Example MiniYaml_type_error :
  MiniYaml.Unmarshal MiniYaml.doc_5_x (Some {| MiniYaml.a := 1; MiniYaml.b := 2 |})
  = (Some {| MiniYaml.a := 5; MiniYaml.b := 2 |},
     Some (MiniYaml.line "yaml: unmarshal errors:"
           ++ "  cannot unmarshal !!str `x` into uint")%string).
Proof. reflexivity. Qed.

Example MiniYaml_marshal :
  MiniYaml.Marshal (Some {| MiniYaml.a := 5; MiniYaml.b := 12 |})
  = (MiniYaml.line "a: 5" ++ MiniYaml.line "b: 12")%string.
Proof. reflexivity. Qed.

(** ** Strings *)

Lemma append_inj_l (p s1 s2 : string) :
  (p ++ s1)%string = (p ++ s2)%string -> s1 = s2.
Proof.
  induction p as [|c p IH]; simpl; intros E.
  - exact E.
  - injection E as E. auto.
Qed.

Lemma string_of_list_ascii_nonempty (l : list ascii) :
  l <> [] -> string_of_list_ascii l <> EmptyString.
Proof. destruct l; simpl; congruence. Qed.

(** ** path/filepath *)

Lemma Clean_nonempty (path : string) : filepath.Clean path <> EmptyString.
Proof.
  unfold filepath.Clean.
  destruct (list_ascii_of_string path) as [|c p]; [discriminate|].
  cbv zeta.
  match goal with
  | |- string_of_list_ascii (rev (match ?o with [] => _ | _ => _ end)) <> _ =>
      set (out := o)
  end.
  apply string_of_list_ascii_nonempty.
  destruct out as [|x out']; simpl; [discriminate|].
  intros E. apply (f_equal (@List.length ascii)) in E.
  rewrite length_app in E. simpl in E. lia.
Qed.

Lemma Dir_nonempty (path : string) : filepath.Dir path <> EmptyString.
Proof. unfold filepath.Dir. apply Clean_nonempty. Qed.

(** ** The monad's traces *)

Section Traces.

Context {Doc Handler Logger : Type} `{!Document Doc}.

Abbreviation Config := (Config Doc Handler Logger).
Abbreviation Effect := (Effect Doc Handler Logger).

Lemma call_handlers_trace (hs : list Handler) (conf : Config) (w : World) :
  call_handlers hs conf w = (tt, map (fun h => Call h conf) hs).
Proof.
  induction hs as [|h hs IH]; simpl; [reflexivity|].
  unfold bind, emit. rewrite IH. reflexivity.
Qed.

Lemma calls_app (t1 t2 : list Effect) : calls (t1 ++ t2) = calls t1 ++ calls t2.
Proof.
  induction t1 as [|e t1 IH]; simpl; [reflexivity|].
  destruct e; simpl; rewrite ?IH; reflexivity.
Qed.

Lemma calls_map_Call (hs : list Handler) (conf : Config) :
  calls (map (fun h => Call h conf) hs) = map (fun h => (h, conf)) hs.
Proof. induction hs as [|h hs IH]; simpl; [|rewrite IH]; reflexivity. Qed.

Lemma sleeps_app (t1 t2 : list Effect) :
  sleeps (t1 ++ t2) = sleeps t1 ++ sleeps t2.
Proof.
  induction t1 as [|e t1 IH]; simpl; [reflexivity|].
  destruct e; simpl; rewrite ?IH; reflexivity.
Qed.

Lemma sleeps_map_Call (hs : list Handler) (conf : Config) :
  sleeps (map (fun h => Call h conf) hs) = [].
Proof. induction hs as [|h hs IH]; simpl; auto. Qed.

(** [parseConfig] reads once; a read error leaves the target alone. *)
Lemma parseConfig_eq (path : string)
    (unmarshal : string -> Doc -> Doc * option string) (target : Doc)
    (w : World) :
  parseConfig (Handler := Handler) (Logger := Logger) path unmarshal target w =
  (match ReadFile w path with
   | inr err => (target, Some ("Failed to read file content: " ++ err)%string)
   | inl content =>
       (fst (unmarshal content target),
        option_map (String.append "Failed to parse yaml: ")
          (snd (unmarshal content target)))
   end, [Read path]).
Proof.
  unfold parseConfig, bind, ioutil_ReadFile, ret.
  destruct (ReadFile w path) as [content|err]; [|reflexivity].
  destruct (unmarshal content target) as [d [e|]]; reflexivity.
Qed.

(** An accepted event: the whole cycle. *)
Lemma iteration_accepted (m : Monitor) (conf : Config) (ev : Event) (w : World) :
  Name ev = watched m ->
  let r := fst (parseConfig (Handler := Handler) (Logger := Logger)
                  (configPath m) yaml_Unmarshal (api_Config conf) w) in
  let conf' := set_api_Config conf (fst r) in
  iteration m conf (case_Event ev) w =
  (conf',
   Sleep Second :: Read (configPath m)
     :: failure_log m (snd r) ++ notification m (api_Config conf) conf').
Proof.
  intros Hname. cbv zeta. unfold iteration.
  rewrite Hname, String.eqb_refl. cbn [negb].
  unfold bind, emit, ret. rewrite parseConfig_eq.
  set (r := match ReadFile w (configPath m) with
            | inl content => _ | inr err => _ end).
  unfold notification, failure_log. cbn [fst snd api_Config set_api_Config].
  destruct (snd r) as [err|];
    destruct (yaml_Marshal (api_Config conf) =? yaml_Marshal (fst r))%string;
    rewrite ?call_handlers_trace; cbn [app]; rewrite ?app_nil_r; reflexivity.
Qed.

(** Any other event: nothing happens. *)
Lemma iteration_rejected (m : Monitor) (conf : Config) (ev : Event) (w : World) :
  Name ev <> watched m -> iteration m conf (case_Event ev) w = (conf, []).
Proof.
  intros Hname. unfold iteration.
  destruct (String.eqb_spec (Name ev) (watched m)) as [E|_]; [contradiction|].
  reflexivity.
Qed.

End Traces.

(** ** The loader *)

Section Load.

Context {Doc Handler Logger : Type} `{!Document Doc}.

Abbreviation Config := (Config Doc Handler Logger).
Abbreviation Effect := (Effect Doc Handler Logger).

(** [ReadConfigFile] by cases, in the order of its returns. *)
Lemma ReadConfigFile_eq (path : string) (monitor : bool) (lg : Logger)
    (w : World) :
  ReadConfigFile (Handler := Handler) path monitor lg w =
  let parsing : list Effect :=
    [Probe path; Info "Parsing configuration" [("path"%string, path)]; Read path] in
  let setup : Effect :=
    Info "Setting up configuration watch" [("path"%string, path)] in
  if negb (PathExists w path) then
    ((None, Some ("The configuration file doesn't exist: " ++ path)%string),
     [Probe path])
  else
    match ReadFile w path with
    | inr err =>
        ((None, Some ("Failed to read file content: " ++ err)%string), parsing)
    | inl content =>
        match snd (yaml_Unmarshal_addr content nil) with
        | Some err => ((None, Some ("Failed to parse yaml: " ++ err)%string), parsing)
        | None =>
            let conf := {| api_Config := fst (yaml_Unmarshal_addr content nil);
                           logger := lg; handlers := [] |} in
            if monitor then
              match NewWatcher w with
              | Some err =>
                  ((None, Some ("Unable to setup fsnotify: " ++ err)%string),
                   parsing ++ [setup; Watcher_new])
              | None =>
                  match watcher_Add w (filepath.Dir path) with
                  | Some err =>
                      ((None, Some ("Unable to setup fsnotify watch: " ++ err)%string),
                       parsing ++ [setup; Watcher_new; Watcher_add (filepath.Dir path)])
                  | None =>
                      ((Some conf, None),
                       parsing ++ [setup; Watcher_new; Watcher_add (filepath.Dir path);
                                   Go (monitor_of path)])
                  end
              end
            else ((Some conf, None), parsing)
        end
    end.
Proof.
  cbv zeta. unfold ReadConfigFile.
  unfold bind at 1. unfold utils_PathExists at 1.
  destruct (PathExists w path); cbn [negb]; [|reflexivity].
  unfold bind at 1. unfold emit at 1.
  unfold bind at 1. rewrite parseConfig_eq. cbn [api_Config fst snd].
  destruct (ReadFile w path) as [content|err]; cbn [fst snd]; [|reflexivity].
  destruct (yaml_Unmarshal_addr content nil) as [d [e|]]; cbn [fst snd option_map];
    [reflexivity|].
  destruct monitor; [|reflexivity].
  unfold bind, emit, fsnotify_NewWatcher, fsnotify_Add, ret.
  destruct (NewWatcher w) as [e|]; [reflexivity|].
  destruct (watcher_Add w (filepath.Dir path)) as [e|]; [reflexivity|].
  destruct (String.eqb_spec (filepath.Dir path) "") as [E|_].
  - exfalso. exact (Dir_nonempty path E).
  - reflexivity.
Qed.

(** The goroutine, when started, watches [Dir path] for [Base path]. *)
Lemma ReadConfigFile_Go (path : string) (monitor : bool) (lg : Logger)
    (w : World) (m : Monitor) :
  In (Go m) (snd (ReadConfigFile (Handler := Handler) path monitor lg w)) ->
  m = monitor_of path.
Proof.
  rewrite ReadConfigFile_eq. cbv zeta.
  destruct (PathExists w path); cbn [negb];
    [destruct (ReadFile w path) as [content|err];
     [destruct (snd (yaml_Unmarshal_addr content nil));
      [|destruct monitor;
        [destruct (NewWatcher w);
         [|destruct (watcher_Add w (filepath.Dir path))]|]]|]|];
    simpl; intros H;
    repeat (destruct H as [H|H]; try discriminate);
    try contradiction.
  injection H as H. symmetry. exact H.
Qed.

End Load.

(** ** The loader's contract *)

Section LoadClaims.

Context {Doc Handler Logger : Type} `{!Document Doc}.

Abbreviation Config := (Config Doc Handler Logger).
Abbreviation Effect := (Effect Doc Handler Logger).

(** The cases of [ReadConfigFile_eq], each with its equations. *)
Ltac load_cases w path monitor :=
  rewrite ?ReadConfigFile_eq; cbv zeta;
  destruct (PathExists w path) eqn:Hex; cbn [negb];
  [ destruct (ReadFile w path) as [content0|e0] eqn:Hrd;
    [ destruct (yaml_Unmarshal_addr content0 nil) as [d0 [e0|]] eqn:Hum;
      cbn [fst snd];
      [ | destruct monitor;
          [ destruct (NewWatcher w) as [e0|] eqn:Hnw;
            [ | destruct (watcher_Add w (filepath.Dir path)) as [e0|] eqn:Hadd ]
          | ] ]
    | ]
  | ]; cbn [fst snd app].

Lemma Load_not_found (path : string) (monitor : bool) (lg : Logger) (w : World) :
  PathExists w path = false ->
  ReadConfigFile (Handler := Handler) path monitor lg w
  = ((None, Some ("The configuration file doesn't exist: " ++ path)%string),
     [Probe path]).
Proof. intros H. rewrite ReadConfigFile_eq. cbv zeta. rewrite H. reflexivity. Qed.

Lemma Load_decode_error (path : string) (monitor : bool) (lg : Logger)
    (w : World) (content e : string) :
  PathExists w path = true ->
  ReadFile w path = inl content ->
  snd (yaml_Unmarshal_addr content nil) = Some e ->
  fst (ReadConfigFile (Handler := Handler) path monitor lg w)
  = (None, Some ("Failed to parse yaml: " ++ e)%string).
Proof.
  intros Hex Hrd Hum. rewrite ReadConfigFile_eq. cbv zeta.
  rewrite Hex, Hrd, Hum. reflexivity.
Qed.

Lemma Load_store (path : string) (monitor : bool) (lg : Logger) (w : World)
    (conf : Config) :
  fst (fst (ReadConfigFile path monitor lg w)) = Some conf ->
  snd (fst (ReadConfigFile (Handler := Handler) path monitor lg w)) = None
  /\ handlers conf = []
  /\ exists content,
       ReadFile w path = inl content
       /\ yaml_Unmarshal_addr content nil = (api_Config conf, None).
Proof.
  load_cases w path monitor; intros H; try discriminate;
    injection H as <-; (split; [reflexivity|]); (split; [reflexivity|]);
    exists content0; (split; [reflexivity|]); cbn [api_Config]; exact Hum.
Qed.

Lemma Load_store_xor_error (path : string) (monitor : bool) (lg : Logger)
    (w : World) :
  (snd (fst (ReadConfigFile (Handler := Handler) path monitor lg w)) <> None ->
   fst (fst (ReadConfigFile (Handler := Handler) path monitor lg w)) = None)
  /\ (snd (fst (ReadConfigFile (Handler := Handler) path monitor lg w)) = None ->
      fst (fst (ReadConfigFile (Handler := Handler) path monitor lg w)) <> None).
Proof.
  load_cases w path monitor; split; intros H; congruence.
Qed.

Lemma Load_checks_before_reading (path : string) (monitor : bool)
    (lg : Logger) (w : World) (path' : string) :
  In (Read path') (snd (ReadConfigFile (Handler := Handler) path monitor lg w)) ->
  PathExists w path = true
  /\ exists t', snd (ReadConfigFile (Handler := Handler) path monitor lg w)
                = Probe path :: t'
                /\ In (Read path') t'.
Proof.
  load_cases w path monitor; intros H;
    (destruct H as [H|H]; [discriminate|]);
    try contradiction;
    (split; [reflexivity|]); eexists; (split; [reflexivity|exact H]).
Qed.

(** C3. Load: a path that does not exist fails with the not-found error,
    decided by the existence check alone, before anything is read; bytes
    that cannot be decoded fail with the decode error; a store that is
    returned holds the decoded document and no handler; and an error
    never comes with a store. *)
Theorem Load_contract (path : string) (monitor : bool) (lg : Logger)
    (w : World) :
  let store := fst (fst (ReadConfigFile (Handler := Handler) path monitor lg w)) in
  let err := snd (fst (ReadConfigFile (Handler := Handler) path monitor lg w)) in
  let t := snd (ReadConfigFile (Handler := Handler) path monitor lg w) in
  (PathExists w path = false ->
   store = None
   /\ err = Some ("The configuration file doesn't exist: " ++ path)%string
   /\ t = [Probe path])
  /\ (forall content e,
        PathExists w path = true ->
        ReadFile w path = inl content ->
        snd (yaml_Unmarshal_addr content nil) = Some e ->
        store = None /\ err = Some ("Failed to parse yaml: " ++ e)%string)
  /\ (forall conf : Config,
        store = Some conf ->
        err = None
        /\ handlers conf = []
        /\ exists content,
             ReadFile w path = inl content
             /\ yaml_Unmarshal_addr content nil = (api_Config conf, None))
  /\ (err <> None -> store = None)
  /\ (err = None -> store <> None)
  /\ (forall path', In (Read path') t ->
        PathExists w path = true
        /\ exists t', t = Probe path :: t' /\ In (Read path') t').
Proof.
  cbv zeta. split; [|split; [|split; [|split; [|split]]]].
  - intros H. rewrite (Load_not_found _ _ _ _ H). auto.
  - intros content e Hex Hrd He.
    rewrite (Load_decode_error _ monitor lg _ _ _ Hex Hrd He). auto.
  - apply Load_store.
  - apply Load_store_xor_error.
  - apply Load_store_xor_error.
  - apply Load_checks_before_reading.
Qed.

(** C9. A monitored load whose watch cannot be set up, either because no
    watcher can be made or because the directory cannot be added to it,
    returns no store and the setup error, although the file was parsed;
    no goroutine is started.  The same load without monitoring returns
    the store. *)
Theorem watch_setup_failure (path : string) (lg : Logger) (w : World)
    (content : string) (d : Doc) :
  PathExists w path = true ->
  ReadFile w path = inl content ->
  yaml_Unmarshal_addr content nil = (d, None) ->
  let r := ReadConfigFile (Handler := Handler) path true lg w in
  (forall e, NewWatcher w = Some e ->
     fst r = (None, Some ("Unable to setup fsnotify: " ++ e)%string)
     /\ forall m, ~ In (Go m) (snd r))
  /\ (forall e, NewWatcher w = None ->
        watcher_Add w (filepath.Dir path) = Some e ->
        fst r = (None, Some ("Unable to setup fsnotify watch: " ++ e)%string)
        /\ forall m, ~ In (Go m) (snd r))
  /\ fst (ReadConfigFile (Handler := Handler) path false lg w)
     = (Some {| api_Config := d; logger := lg; handlers := [] |}, None).
Proof.
  intros Hex Hrd Hum. cbv zeta. rewrite !ReadConfigFile_eq. cbv zeta.
  rewrite Hex, Hrd, Hum. cbn [negb fst snd].
  split; [|split]; [| |reflexivity].
  - intros e He. rewrite He. cbn [fst snd]. split; [reflexivity|].
    intros m H. simpl in H.
    repeat (destruct H as [H|H]; try discriminate). contradiction.
  - intros e Hn He. rewrite Hn, He. cbn [fst snd]. split; [reflexivity|].
    intros m H. simpl in H.
    repeat (destruct H as [H|H]; try discriminate). contradiction.
Qed.

(** C10. The directory computed for the watched file is never the empty
    string, so the fallback to "./" is never taken: the goroutine's
    [pathDir] is [filepath.Dir] of the path, and the path it filters on is
    built from it. *)
Theorem Dir_fallback_unreachable (path : string) :
  filepath.Dir path <> EmptyString
  /\ (if (filepath.Dir path =? "")%string then "./"%string else filepath.Dir path)
     = filepath.Dir path
  /\ forall (monitor : bool) (lg : Logger) (w : World) (m : Monitor),
       In (Go m) (snd (ReadConfigFile (Doc := Doc) (Handler := Handler)
                         path monitor lg w)) ->
       pathDir m = filepath.Dir path
       /\ watched m = (filepath.Dir path ++ "/" ++ filepath.Base path)%string.
Proof.
  split; [apply Dir_nonempty|]. split.
  - destruct (String.eqb_spec (filepath.Dir path) "") as [E|_]; [|reflexivity].
    exfalso. exact (Dir_nonempty path E).
  - intros monitor lg w m H. apply ReadConfigFile_Go in H. subst m.
    split; reflexivity.
Qed.

End LoadClaims.

(** ** The reload cycle *)

Section ReloadClaims.

Context {Doc Handler Logger : Type} `{!Document Doc}.

Abbreviation Config := (Config Doc Handler Logger).
Abbreviation Effect := (Effect Doc Handler Logger).
Abbreviation Step := (Step Handler).

Lemma set_api_Config_same (conf : Config) :
  set_api_Config conf (api_Config conf) = conf.
Proof. destruct conf; reflexivity. Qed.

Lemma calls_failure_log (m : Monitor) (err : option string) :
  calls (failure_log (Doc := Doc) (Handler := Handler) (Logger := Logger) m err)
  = [].
Proof. destruct err; reflexivity. Qed.

Lemma sleeps_failure_log (m : Monitor) (err : option string) :
  sleeps (failure_log (Doc := Doc) (Handler := Handler) (Logger := Logger) m err)
  = [].
Proof. destruct err; reflexivity. Qed.

Lemma notification_same (m : Monitor) (old : Doc) (conf : Config) :
  yaml_Marshal (api_Config conf) = yaml_Marshal old ->
  notification m old conf = [].
Proof.
  intros E. unfold notification. rewrite E, String.eqb_refl. reflexivity.
Qed.

Lemma notification_changed (m : Monitor) (old : Doc) (conf : Config) :
  yaml_Marshal old <> yaml_Marshal (api_Config conf) ->
  notification m old conf
  = Info "Configuration file changed, reloading" [("path"%string, configPath m)]
    :: map (fun h => Call h conf) (handlers conf).
Proof.
  intros N. unfold notification.
  destruct (String.eqb_spec (yaml_Marshal old) (yaml_Marshal (api_Config conf)));
    [contradiction|reflexivity].
Qed.

Lemma sleeps_notification (m : Monitor) (old : Doc) (conf : Config) :
  sleeps (notification m old conf) = [].
Proof.
  unfold notification.
  destruct (yaml_Marshal old =? yaml_Marshal (api_Config conf))%string;
    [reflexivity|]. simpl. apply sleeps_map_Call.
Qed.

(** The store after any iteration: only the document can differ, and only
    by a decode of what an accepted event's cycle read. *)
Lemma iteration_store (m : Monitor) (conf : Config) (s : Select) (w : World) :
  fst (iteration m conf s w)
  = set_api_Config conf
      (fold_left (fun d content => fst (yaml_Unmarshal content d))
         (decoded m [Recv (Handler := Handler) s w]) (api_Config conf)).
Proof.
  destruct s as [ev|err]; [|simpl; symmetry; apply set_api_Config_same].
  cbn [decoded].
  destruct (String.eqb_spec (Name ev) (watched m)) as [E|N].
  - rewrite (iteration_accepted m conf ev w E). cbn [fst].
    rewrite parseConfig_eq. cbn [fst].
    destruct (ReadFile w (configPath m)); reflexivity.
  - rewrite (iteration_rejected m conf ev w N). simpl.
    symmetry; apply set_api_Config_same.
Qed.

Lemma iteration_sleeps (m : Monitor) (conf : Config) (s : Select) (w : World) :
  sleeps (snd (iteration m conf s w)) = repeat Second (accepted m [Recv (Handler := Handler) s w]).
Proof.
  destruct s as [ev|err]; [|reflexivity].
  cbn [accepted].
  destruct (String.eqb_spec (Name ev) (watched m)) as [E|N].
  - rewrite (iteration_accepted m conf ev w E). cbn [snd sleeps].
    rewrite sleeps_app, sleeps_failure_log, sleeps_notification. reflexivity.
  - rewrite (iteration_rejected m conf ev w N). reflexivity.
Qed.

Lemma run_sleeps (m : Monitor) (steps : list Step) (conf : Config) :
  sleeps (snd (run m conf steps)) = repeat Second (accepted m steps).
Proof.
  revert conf. induction steps as [|[s w|h] steps IH]; intros conf.
  - reflexivity.
  - cbn [run].
    destruct (iteration m conf s w) as [conf' t1] eqn:Hit.
    specialize (IH conf').
    destruct (run m conf' steps) as [conf'' t2]. cbn [snd] in *.
    rewrite sleeps_app, IH.
    change t1 with (snd (conf', t1)). rewrite <- Hit, iteration_sleeps.
    rewrite <- repeat_app. f_equal.
    destruct s as [ev|err]; cbn [accepted]; [|reflexivity].
    destruct (Name ev =? watched m)%string; simpl; lia.
  - cbn [run accepted]. apply IH.
Qed.

(** A cycle that reads nothing, or a content that decodes to the held
    document, leaves the store alone and calls no handler. *)
Lemma iteration_stable (m : Monitor) (conf : Config) (s : Select) (w : World) :
  (forall content, In content (decoded m [Recv (Handler := Handler) s w]) ->
     fst (yaml_Unmarshal content (api_Config conf)) = api_Config conf) ->
  fst (iteration m conf s w) = conf /\ calls (snd (iteration m conf s w)) = [].
Proof.
  destruct s as [ev|err]; [|intros _; split; reflexivity].
  cbn [decoded].
  destruct (String.eqb_spec (Name ev) (watched m)) as [E|N].
  - rewrite (iteration_accepted m conf ev w E). cbn [fst snd].
    rewrite parseConfig_eq. cbn [fst snd].
    destruct (ReadFile w (configPath m)) as [content|e]; cbn [fst snd]; intros H.
    + rewrite (H content (or_introl eq_refl)), set_api_Config_same.
      split; [reflexivity|]. cbn [calls].
      rewrite calls_app, calls_failure_log, notification_same; reflexivity.
    + rewrite set_api_Config_same. split; [reflexivity|].
      rewrite notification_same; reflexivity.
  - rewrite (iteration_rejected m conf ev w N). intros _. split; reflexivity.
Qed.

Lemma decoded_cons (m : Monitor) (st : Step) (steps : list Step) :
  decoded m (st :: steps) = decoded m [st] ++ decoded m steps.
Proof.
  destruct st as [[ev|err] w|h]; cbn [decoded]; try reflexivity.
  destruct (Name ev =? watched m)%string; [|reflexivity].
  destruct (ReadFile w (configPath m)); reflexivity.
Qed.

Lemma run_stable (m : Monitor) (steps : list Step) (conf : Config) (d : Doc) :
  api_Config conf = d ->
  (forall content, In content (decoded m steps) ->
     fst (yaml_Unmarshal content d) = d) ->
  api_Config (fst (run m conf steps)) = d /\ calls (snd (run m conf steps)) = [].
Proof.
  revert conf. induction steps as [|[s w|h] steps IH]; intros conf Hd Hsame.
  - split; [exact Hd|reflexivity].
  - rewrite decoded_cons in Hsame. cbn [run].
    destruct (iteration_stable m conf s w) as [Hc Ht].
    { intros content Hin. rewrite Hd. apply Hsame, in_or_app. left. exact Hin. }
    destruct (iteration m conf s w) as [conf' t1]. cbn [fst snd] in Hc, Ht.
    subst conf'.
    destruct (IH conf Hd) as [IHd IHt].
    { intros content Hin. apply Hsame, in_or_app. right. exact Hin. }
    destruct (run m conf steps) as [conf'' t2]. cbn [fst snd] in *.
    split; [exact IHd|]. rewrite calls_app, Ht, IHt. reflexivity.
  - cbn [run]. apply IH; [exact Hd|exact Hsame].
Qed.

(** C1, as the code has it. A failed re-decode is logged.  The decode is
    in place, so the document held afterwards is what the decoder left in
    it: when the file could not be read that is the previous document,
    untouched, and no handler is invoked; and whenever its encoding equals
    the old one no handler is invoked. *)
Theorem reload_failure (m : Monitor) (conf : Config) (ev : Event) (w : World)
    (err : string) :
  Name ev = watched m ->
  snd (fst (parseConfig (Handler := Handler) (Logger := Logger)
              (configPath m) yaml_Unmarshal (api_Config conf) w)) = Some err ->
  let conf' := fst (iteration m conf (case_Event ev) w) in
  let t := snd (iteration m conf (case_Event ev) w) in
  In (Error "Failed to read the new configuration"
        [("path"%string, configPath m); ("error"%string, err)]) t
  /\ conf' = set_api_Config conf
               (fst (fst (parseConfig (Handler := Handler) (Logger := Logger)
                            (configPath m) yaml_Unmarshal (api_Config conf) w)))
  /\ (forall msg, ReadFile w (configPath m) = inr msg ->
        conf' = conf /\ calls t = [])
  /\ (yaml_Marshal (api_Config conf') = yaml_Marshal (api_Config conf) ->
      calls t = []).
Proof.
  intros Hname Herr. cbv zeta.
  rewrite (iteration_accepted m conf ev w Hname). cbn [fst snd].
  rewrite Herr. cbn [failure_log].
  split; [simpl; auto|]. split; [reflexivity|]. split.
  - intros msg Hrd. rewrite parseConfig_eq, Hrd. cbn [fst].
    rewrite set_api_Config_same. split; [reflexivity|].
    rewrite notification_same; reflexivity.
  - cbn [api_Config set_api_Config]. intros E.
    rewrite notification_same; [reflexivity|exact E].
Qed.

(** C2, as the code has it. At every observation point the store's
    document is the one the monitoring began with, with the contents read
    by the accepted events' cycles decoded into it, in place and in
    order; nothing else of the store changes but by registration. *)
Theorem document_is_decoded_in_place (m : Monitor) (steps : list Step)
    (conf : Config) :
  api_Config (fst (run m conf steps))
  = fold_left (fun d content => fst (yaml_Unmarshal content d))
      (decoded m steps) (api_Config conf).
Proof.
  revert conf. induction steps as [|[s w|h] steps IH]; intros conf.
  - reflexivity.
  - cbn [run].
    destruct (iteration m conf s w) as [conf' t1] eqn:Hit.
    specialize (IH conf').
    destruct (run m conf' steps) as [conf'' t2]. cbn [fst] in *.
    rewrite IH.
    change conf' with (fst (conf', t1)). rewrite <- Hit, iteration_store.
    cbn [api_Config set_api_Config].
    rewrite <- fold_left_app. f_equal.
    destruct s as [ev|e]; cbn [decoded]; [|reflexivity].
    destruct (Name ev =? watched m)%string; [|reflexivity].
    destruct (ReadFile w (configPath m)); reflexivity.
  - cbn [run decoded]. rewrite IH. reflexivity.
Qed.

(** C4. An event starts a reload cycle exactly when its name is the
    watched path, the directory and the base name joined by a slash; an
    event for any other name, and so for any sibling of the watched file,
    changes nothing and does nothing. *)
Theorem event_filter (m : Monitor) (conf : Config) (ev : Event) (w : World) :
  (Name ev = watched m ->
   exists t, snd (iteration m conf (case_Event ev) w)
             = Sleep Second :: Read (configPath m) :: t)
  /\ (Name ev <> watched m -> iteration m conf (case_Event ev) w = (conf, []))
  /\ (forall (sibling : string) (op : nat),
        sibling <> pathBase m ->
        iteration m conf
          (case_Event {| Name := (pathDir m ++ "/" ++ sibling)%string; Op := op |}) w
        = (conf, []))
  /\ (forall (path : string) (monitor : bool) (lg : Logger) (w0 : World),
        In (Go m) (snd (ReadConfigFile (Doc := Doc) (Handler := Handler)
                          path monitor lg w0)) ->
        watched m = (filepath.Dir path ++ "/" ++ filepath.Base path)%string).
Proof.
  split; [|split; [|split]].
  - intros E. rewrite (iteration_accepted m conf ev w E). cbn [snd].
    eexists. reflexivity.
  - apply iteration_rejected.
  - intros sibling op N. apply iteration_rejected. cbn [Name]. unfold watched.
    intros E. apply append_inj_l in E. apply (append_inj_l "/") in E.
    contradiction.
  - intros path monitor lg w0 H. apply ReadConfigFile_Go in H. subst m.
    reflexivity.
Qed.

(** C5, as the code has it. When a cycle reads the file, decodes it
    without error and finds the two encodings different, it logs the
    change and then invokes the handlers registered at that point, each
    once, in registration order, one after the other, each with the
    updated store.  The document of that store is the content decoded in
    place into the document held before, which need not be what the
    content decodes to on its own. *)
Theorem change_notifies (m : Monitor) (conf : Config) (ev : Event) (w : World)
    (content : string) (d' : Doc) :
  Name ev = watched m ->
  ReadFile w (configPath m) = inl content ->
  yaml_Unmarshal content (api_Config conf) = (d', None) ->
  yaml_Marshal (api_Config conf) <> yaml_Marshal d' ->
  let conf' := fst (iteration m conf (case_Event ev) w) in
  let t := snd (iteration m conf (case_Event ev) w) in
  conf' = set_api_Config conf d'
  /\ t = [Sleep Second; Read (configPath m);
          Info "Configuration file changed, reloading"
            [("path"%string, configPath m)]]
         ++ map (fun h => Call h conf') (handlers conf)
  /\ calls t = map (fun h => (h, conf')) (handlers conf)
  /\ handlers conf' = handlers conf
  /\ (forall h, handlers (fst (RegisterHandler conf h)) = handlers conf ++ [h]).
Proof.
  intros Hname Hrd Hum Hneq. cbv zeta.
  rewrite (iteration_accepted m conf ev w Hname). cbn [fst snd].
  rewrite parseConfig_eq, Hrd, Hum. cbn [fst snd option_map failure_log app].
  rewrite notification_changed by exact Hneq.
  cbn [handlers set_api_Config].
  split; [reflexivity|]. split; [reflexivity|]. split; [|split; reflexivity].
  cbn [calls]. apply calls_map_Call.
Qed.

(** C6. When the encoding of the document after the decode equals the
    encoding of the document held before it, no handler is invoked, and
    after a decode that succeeded nothing is logged either: the cycle is
    the pause and the read.  In particular, when the content read decodes
    to the document already held, the store is as before and no handler
    is invoked; and over a run whose accepted events all read such
    contents, no handler is ever invoked. *)
Theorem unchanged_is_silent (m : Monitor) (conf : Config) (ev : Event)
    (w : World) :
  Name ev = watched m ->
  let conf' := fst (iteration m conf (case_Event ev) w) in
  let t := snd (iteration m conf (case_Event ev) w) in
  (yaml_Marshal (api_Config conf') = yaml_Marshal (api_Config conf) ->
   calls t = []
   /\ (snd (fst (parseConfig (Handler := Handler) (Logger := Logger)
                   (configPath m) yaml_Unmarshal (api_Config conf) w)) = None ->
       t = [Sleep Second; Read (configPath m)]))
  /\ (forall content,
        ReadFile w (configPath m) = inl content ->
        fst (yaml_Unmarshal content (api_Config conf)) = api_Config conf ->
        conf' = conf /\ calls t = [])
  /\ (forall steps : list Step,
        (forall content, In content (decoded m steps) ->
           fst (yaml_Unmarshal content (api_Config conf)) = api_Config conf) ->
        api_Config (fst (run m conf steps)) = api_Config conf
        /\ calls (snd (run m conf steps)) = []).
Proof.
  intros Hname. cbv zeta. split; [|split].
  - rewrite (iteration_accepted m conf ev w Hname). cbn [fst snd].
    cbn [api_Config set_api_Config].
    intros E. rewrite notification_same by exact E. split.
    + cbn [calls]. rewrite app_nil_r. apply calls_failure_log.
    + intros Hok. rewrite Hok. reflexivity.
  - intros content Hrd Hsame. apply iteration_stable.
    cbn [decoded]. rewrite Hname, String.eqb_refl, Hrd.
    intros c [<-|[]]. exact Hsame.
  - intros steps Hsame. apply run_stable; [reflexivity|exact Hsame].
Qed.

(** C7. An accepted event's cycle pauses once, for one second, before it
    reads the file, whatever else arrives, and then decodes what it read
    into the held document.  What it compares the encoding of the result
    with is the encoding of the document held when the event was
    accepted, before the decode, not anything read from the file: the
    handlers are called exactly when those two differ.  Over a run there
    is one such pause per accepted event. *)
Theorem debounce_then_compare (m : Monitor) (conf : Config) (ev : Event)
    (w : World) :
  Name ev = watched m ->
  let conf' := fst (iteration m conf (case_Event ev) w) in
  let t := snd (iteration m conf (case_Event ev) w) in
  (exists t', t = Sleep Second :: Read (configPath m) :: t' /\ sleeps t' = []
     /\ forall path, ~ In (Read path) t')
  /\ Second = 1000000000%Z
  /\ (calls t = [] <->
      yaml_Marshal (api_Config conf) = yaml_Marshal (api_Config conf')
      \/ handlers conf = [])
  /\ (forall steps, sleeps (snd (run m conf steps))
                    = repeat Second (accepted m steps))
  /\ (forall content,
        ReadFile w (configPath m) = inl content ->
        conf' = set_api_Config conf
                  (fst (yaml_Unmarshal content (api_Config conf))))
  /\ (forall e, ReadFile w (configPath m) = inr e -> conf' = conf)
  /\ t = Sleep Second :: Read (configPath m)
         :: failure_log m
              (snd (fst (parseConfig (Handler := Handler) (Logger := Logger)
                           (configPath m) yaml_Unmarshal (api_Config conf) w)))
            ++ (if (yaml_Marshal (api_Config conf)
                    =? yaml_Marshal (api_Config conf'))%string
                then []
                else Info "Configuration file changed, reloading"
                       [("path"%string, configPath m)]
                     :: map (fun h => Call h conf') (handlers conf))
  /\ calls t
     = (if (yaml_Marshal (api_Config conf)
            =? yaml_Marshal (api_Config conf'))%string
        then []
        else map (fun h => (h, conf')) (handlers conf)).
Proof.
  intros Hname. cbv zeta.
  rewrite (iteration_accepted m conf ev w Hname). cbn [fst snd].
  cbn [api_Config set_api_Config].
  set (r := fst (parseConfig (configPath m) yaml_Unmarshal (api_Config conf) w)).
  split; [|split; [reflexivity|split; [|split; [intros; apply run_sleeps|]]]].
  - eexists. split; [reflexivity|]. split.
    + rewrite sleeps_app, sleeps_failure_log, sleeps_notification. reflexivity.
    + intros path H. apply in_app_or in H. destruct H as [H|H].
      * revert H. destruct (snd r); simpl; [intros [H|[]]; discriminate|tauto].
      * revert H. unfold notification.
        destruct (String.eqb _ _); [simpl; tauto|].
        intros [H|H]; [discriminate|].
        apply in_map_iff in H. destruct H as [h [H _]]. discriminate.
  - cbn [calls]. rewrite calls_app, calls_failure_log. cbn [app].
    unfold notification. cbn [api_Config set_api_Config handlers].
    destruct (String.eqb_spec (yaml_Marshal (api_Config conf)) (yaml_Marshal (fst r)))
      as [E|N].
    + split; auto.
    + cbn [calls]. rewrite calls_map_Call. split.
      * intros H. right. destruct (handlers conf); [reflexivity|discriminate].
      * intros [E|E]; [contradiction|]. rewrite E. reflexivity.
  - split; [|split; [|split]].
    + intros content Hrd. subst r. rewrite parseConfig_eq, Hrd. reflexivity.
    + intros e Hrd. subst r. rewrite parseConfig_eq, Hrd. cbn [fst].
      apply set_api_Config_same.
    + unfold notification. cbn [api_Config set_api_Config handlers].
      reflexivity.
    + cbn [calls]. rewrite calls_app, calls_failure_log. cbn [app].
      unfold notification. cbn [api_Config set_api_Config handlers].
      destruct (String.eqb _ _); [reflexivity|].
      cbn [calls]. apply calls_map_Call.
Qed.

(** C8. An error from the watcher is logged and nothing else: the store,
    its document and its handlers are as before, no handler is invoked,
    and the loop goes on with whatever comes next. *)
Theorem subscription_error_is_logged (m : Monitor) (conf : Config)
    (err : string) (w : World) (steps : list Step) :
  iteration m conf (case_Error err) w
  = (conf, [Error "Got bad file notification" [("error"%string, err)]])
  /\ run m conf (Recv (case_Error err) w :: steps)
     = (fst (run m conf steps),
        Error "Got bad file notification" [("error"%string, err)]
        :: snd (run m conf steps)).
Proof.
  split; [reflexivity|].
  cbn [run]. change (iteration m conf (case_Error err) w)
    with (conf, [Error (Doc := Doc) (Handler := Handler) (Logger := Logger)
                   "Got bad file notification" [("error"%string, err)]]).
  cbv iota beta. destruct (run m conf steps). reflexivity.
Qed.

End ReloadClaims.

(** ** The claims on the small document *)

Module OnMiniYaml.

Import MiniYaml.

#[local] Existing Instance document.

(** C1, refuted as stated. The file is rewritten with a value of the
    wrong type for b: the re-decode fails, and yet the held document has
    changed, from (1, 2) to (5, 2), and both handlers are invoked. *)
Lemma reload_failure_counterexample :
  Name event = watched monitor
  /\ snd (fst (parseConfig (Handler := nat) (Logger := unit)
                 path (yaml_Unmarshal (Document := document))
                 (api_Config store) (file doc_5_x)))
     <> None
  /\ api_Config (fst (iter store (file doc_5_x))) = doc_of 5 2
  /\ calls (snd (iter store (file doc_5_x)))
     = [(10, set_api_Config store (doc_of 5 2));
        (20, set_api_Config store (doc_of 5 2))]
  /\ ~ (api_Config (fst (iter store (file doc_5_x))) = api_Config store
        /\ calls (snd (iter store (file doc_5_x))) = []).
Proof.
  split; [reflexivity|]. split; [vm_compute; discriminate|].
  split; [reflexivity|]. split; [reflexivity|].
  intros [H _]. vm_compute in H. discriminate.
Qed.

(** C1, as the code has it, when the file is gone at the time of the read. *)
Lemma reload_failure_witness :
  Name event = watched monitor
  /\ In (Error "Failed to read the new configuration"
           [("path"%string, path);
            ("error"%string,
             "Failed to read file content: no such file or directory"%string)])
        (snd (iter store no_file))
  /\ fst (iter store no_file) = store
  /\ calls (snd (iter store no_file)) = [].
Proof.
  assert (Hname : Name event = watched monitor) by reflexivity.
  assert (Herr : snd (fst (parseConfig (Handler := nat) (Logger := unit)
                             (configPath monitor)
                             (yaml_Unmarshal (Document := document))
                             (api_Config store) no_file))
                 = Some "Failed to read file content: no such file or directory"%string)
    by reflexivity.
  destruct (reload_failure (Document0 := document) monitor store event no_file _
              Hname Herr) as (Hlog & _ & Hread & _).
  destruct (Hread "no such file or directory"%string eq_refl) as [Hsame Hcalls].
  exact (conj Hname (conj Hlog (conj Hsame Hcalls))).
Defined.

(** C2, refuted as stated. After a reload that decodes "a: 5" without
    error the store holds (5, 2): not the document first loaded, (1, 2),
    and not the document the content decodes to, (5, 0).  After a reload
    that fails on "a: 5", "b: x" the store holds (5, 2) too, and no
    content was decoded without error at all. *)
Lemma whole_document_counterexample :
  fst (ReadConfigFile (Handler := nat) (Document0 := document) path true tt
         (file doc_1_2))
  = (Some {| api_Config := doc_of 1 2; logger := tt; handlers := [] |}, None)
  /\ (let steps := [Recv (Handler := nat) (case_Event event) (file doc_5)] in
      let held := api_Config (fst (run (Document0 := document) monitor store steps)) in
      decoded monitor steps = [doc_5]
      /\ yaml_Unmarshal (Document := document) doc_5 (api_Config store)
         = (doc_of 5 2, None)
      /\ held = doc_of 5 2
      /\ held <> doc_of 1 2
      /\ forall content, In content (decoded monitor steps) ->
           held <> fst (yaml_Unmarshal_addr (Document := document) content nil))
  /\ (let steps := [Recv (Handler := nat) (case_Event event) (file doc_5_x)] in
      let held := api_Config (fst (run (Document0 := document) monitor store steps)) in
      decoded monitor steps = [doc_5_x]
      /\ snd (yaml_Unmarshal (Document := document) doc_5_x (api_Config store)) <> None
      /\ snd (yaml_Unmarshal_addr (Document := document) doc_5_x nil) <> None
      /\ held = doc_of 5 2
      /\ held <> doc_of 1 2).
Proof.
  split; [reflexivity|]. split; cbv zeta.
  - split; [reflexivity|]. split; [reflexivity|]. split; [reflexivity|].
    split; [vm_compute; discriminate|].
    intros content [<-|[]]. vm_compute. discriminate.
  - split; [reflexivity|]. split; [vm_compute; discriminate|].
    split; [vm_compute; discriminate|]. split; [reflexivity|].
    vm_compute; discriminate.
Qed.

(** C5, refuted as stated. The file is rewritten with the one line
    "a: 5". The decode succeeds and the encodings differ, so both handlers
    are invoked; the store they are given holds (5, 2), the content
    decoded over the document held before, while the content decodes to
    (5, 0). *)
Lemma change_notifies_counterexample :
  Name event = watched monitor
  /\ yaml_Unmarshal doc_5 (api_Config store) = (doc_of 5 2, None)
  /\ yaml_Marshal (api_Config store)
     <> yaml_Marshal (api_Config (fst (iter store (file doc_5))))
  /\ calls (snd (iter store (file doc_5)))
     = [(10, set_api_Config store (doc_of 5 2));
        (20, set_api_Config store (doc_of 5 2))]
  /\ yaml_Unmarshal_addr doc_5 nil = (doc_of 5 0, None)
  /\ ~ (forall h c, In (h, c) (calls (snd (iter store (file doc_5)))) ->
         api_Config c = fst (yaml_Unmarshal_addr doc_5 nil)).
Proof.
  split; [reflexivity|]. split; [reflexivity|].
  split; [vm_compute; discriminate|]. split; [reflexivity|].
  split; [reflexivity|].
  intros H. specialize (H 10 (set_api_Config store (doc_of 5 2))).
  assert (Hin : In (10, set_api_Config store (doc_of 5 2))
                  (calls (snd (iter store (file doc_5)))))
    by (vm_compute; auto).
  apply H in Hin. vm_compute in Hin. discriminate.
Qed.

(** C5, as the code has it, on a change of b from 2 to 7. *)
Lemma change_notifies_witness :
  Name event = watched monitor
  /\ ReadFile (file doc_5_7) (configPath monitor) = inl doc_5_7
  /\ yaml_Unmarshal doc_5_7 (api_Config store) = (doc_of 5 7, None)
  /\ yaml_Marshal (api_Config store) <> yaml_Marshal (doc_of 5 7)
  /\ fst (iter store (file doc_5_7)) = set_api_Config store (doc_of 5 7)
  /\ calls (snd (iter store (file doc_5_7)))
     = [(10, set_api_Config store (doc_of 5 7));
        (20, set_api_Config store (doc_of 5 7))].
Proof.
  assert (Hname : Name event = watched monitor) by reflexivity.
  assert (Hrd : ReadFile (file doc_5_7) (configPath monitor) = inl doc_5_7)
    by reflexivity.
  assert (Hum : yaml_Unmarshal doc_5_7 (api_Config store) = (doc_of 5 7, None))
    by reflexivity.
  assert (Hneq : yaml_Marshal (api_Config store) <> yaml_Marshal (doc_of 5 7))
    by (vm_compute; discriminate).
  destruct (change_notifies (Document0 := document) monitor store event
              (file doc_5_7) doc_5_7 (doc_of 5 7) Hname Hrd Hum Hneq)
    as (Hstore & _ & Hcalls & _ & _).
  refine (conj Hname (conj Hrd (conj Hum (conj Hneq (conj Hstore _))))).
  unfold iter. rewrite Hcalls, Hstore. reflexivity.
Defined.

(** C6 on a rewrite of the file with the content it had. *)
Lemma unchanged_is_silent_witness :
  Name event = watched monitor
  /\ yaml_Unmarshal (Document := document) doc_1_2 (api_Config store)
     = (api_Config store, None)
  /\ fst (iter store (file doc_1_2)) = store
  /\ snd (iter store (file doc_1_2)) = [Sleep Second; Read path].
Proof.
  assert (Hname : Name event = watched monitor) by reflexivity.
  assert (Hsame : yaml_Unmarshal (Document := document) doc_1_2 (api_Config store)
                  = (api_Config store, None)) by reflexivity.
  destruct (unchanged_is_silent (Document0 := document) monitor store event
              (file doc_1_2) Hname) as (Hsilent & Hrewrite & _).
  destruct (Hrewrite doc_1_2 eq_refl (f_equal fst Hsame)) as [Hstore _].
  refine (conj Hname (conj Hsame (conj Hstore _))).
  apply Hsilent; [rewrite Hstore|]; reflexivity.
Defined.

(** C7 on a change of b from 2 to 7: the pause, the read, the decode of
    what was read, and the comparison with the encoding of (1, 2). *)
Lemma debounce_then_compare_witness :
  Name event = watched monitor
  /\ sleeps (snd (iter store (file doc_5_7))) = [1000000000%Z]
  /\ fst (iter store (file doc_5_7)) = set_api_Config store (doc_of 5 7)
  /\ snd (iter store (file doc_5_7))
     = [Sleep Second; Read path;
        Info "Configuration file changed, reloading" [("path"%string, path)];
        Call 10 (set_api_Config store (doc_of 5 7));
        Call 20 (set_api_Config store (doc_of 5 7))]
  /\ calls (snd (iter store (file doc_5_7)))
     = [(10, set_api_Config store (doc_of 5 7));
        (20, set_api_Config store (doc_of 5 7))].
Proof.
  assert (Hname : Name event = watched monitor) by reflexivity.
  destruct (debounce_then_compare (Document0 := document) monitor store event
              (file doc_5_7) Hname)
    as ((t' & Ht & Hs & _) & Hsec & _ & _ & Hdec & _ & Htrace & Hcalls).
  pose proof (Hdec doc_5_7 eq_refl) as Hstore.
  split; [exact Hname|]. split; [|split; [|split]].
  - unfold iter. rewrite Ht. cbn [sleeps]. rewrite Hs, Hsec. reflexivity.
  - exact Hstore.
  - unfold iter. rewrite Htrace, Hstore. reflexivity.
  - unfold iter. rewrite Hcalls, Hstore. reflexivity.
Defined.

(** C9 when no watcher can be made. *)
Lemma watch_setup_failure_witness :
  PathExists (no_watcher doc_1_2) path = true
  /\ ReadFile (no_watcher doc_1_2) path = inl doc_1_2
  /\ yaml_Unmarshal_addr (Document := document) doc_1_2 nil = (doc_of 1 2, None)
  /\ fst (ReadConfigFile (Handler := nat) (Document0 := document) path true tt
            (no_watcher doc_1_2))
     = (None, Some "Unable to setup fsnotify: too many open files"%string).
Proof.
  assert (Hex : PathExists (no_watcher doc_1_2) path = true) by reflexivity.
  assert (Hrd : ReadFile (no_watcher doc_1_2) path = inl doc_1_2) by reflexivity.
  assert (Hum : yaml_Unmarshal_addr (Document := document) doc_1_2 nil
                = (doc_of 1 2, None)) by reflexivity.
  destruct (watch_setup_failure (Handler := nat) (Document0 := document) path tt
              (no_watcher doc_1_2) doc_1_2 (doc_of 1 2) Hex Hrd Hum)
    as (Hnew & _ & _).
  destruct (Hnew "too many open files"%string eq_refl) as [Hret _].
  exact (conj Hex (conj Hrd (conj Hum Hret))).
Defined.

End OnMiniYaml.

(** ** The watched path *)

Lemma list_ascii_of_string_app (s1 s2 : string) :
  list_ascii_of_string (s1 ++ s2) = list_ascii_of_string s1 ++ list_ascii_of_string s2.
Proof. induction s1 as [|c s1 IH]; simpl; [|rewrite IH]; reflexivity. Qed.

Lemma string_of_list_ascii_app (l1 l2 : list ascii) :
  string_of_list_ascii (l1 ++ l2)
  = (string_of_list_ascii l1 ++ string_of_list_ascii l2)%string.
Proof. induction l1 as [|c l1 IH]; simpl; [|rewrite IH]; reflexivity. Qed.

Lemma length_append (s1 s2 : string) :
  String.length (s1 ++ s2) = String.length s1 + String.length s2.
Proof. induction s1 as [|c s1 IH]; simpl; [|rewrite IH]; reflexivity. Qed.

Lemma forallb_rev {A} (f : A -> bool) (l : list A) :
  forallb f l = true -> forallb f (rev l) = true.
Proof.
  rewrite !forallb_forall. intros H x Hx. apply H, in_rev. exact Hx.
Qed.

Lemma drop_last_element_app (l rest : list ascii) :
  forallb not_separator l = true ->
  filepath.at_end_or_sep rest = true ->
  filepath.drop_last_element (l ++ rest) = rest.
Proof.
  intros Hl Hrest. induction l as [|c l IH]; simpl.
  - destruct rest as [|c rest]; [reflexivity|]. simpl in *. rewrite Hrest.
    reflexivity.
  - simpl in Hl. apply andb_prop in Hl. destruct Hl as [Hc Hl].
    unfold not_separator in Hc. apply negb_true_iff in Hc. rewrite Hc. auto.
Qed.

Lemma last_element_app (l rest : list ascii) :
  forallb not_separator l = true ->
  filepath.at_end_or_sep rest = true ->
  filepath.last_element (l ++ rest) = l.
Proof.
  intros Hl Hrest. induction l as [|c l IH]; simpl.
  - destruct rest as [|c rest]; [reflexivity|]. simpl in *. rewrite Hrest.
    reflexivity.
  - simpl in Hl. apply andb_prop in Hl. destruct Hl as [Hc Hl].
    unfold not_separator in Hc. apply negb_true_iff in Hc. rewrite Hc.
    f_equal. auto.
Qed.

Lemma strip_trailing_name (l rest : list ascii) :
  l <> [] -> forallb not_separator l = true ->
  filepath.strip_trailing (l ++ rest) = l ++ rest.
Proof.
  intros Hne Hl. destruct l as [|c l]; [contradiction|]. simpl in *.
  apply andb_prop in Hl. destruct Hl as [Hc _].
  unfold not_separator in Hc. apply negb_true_iff in Hc. rewrite Hc. reflexivity.
Qed.

Lemma Base_of_nonempty (path : string) :
  path <> EmptyString ->
  filepath.Base path =
  match filepath.last_element
          (filepath.strip_trailing (rev (list_ascii_of_string path))) with
  | [] => String filepath.Separator EmptyString
  | e => string_of_list_ascii (rev e)
  end.
Proof. destruct path; [contradiction|reflexivity]. Qed.

Lemma plain_name_chars (name : string) :
  plain_name name = true ->
  name <> EmptyString
  /\ rev (list_ascii_of_string name) <> []
  /\ forallb not_separator (rev (list_ascii_of_string name)) = true.
Proof.
  unfold plain_name. intros H. apply andb_prop in H. destruct H as [Hne Hall].
  apply negb_true_iff, String.eqb_neq in Hne.
  split; [exact Hne|]. split.
  - destruct name as [|c name]; [contradiction|]. simpl.
    intros E. apply (f_equal (@List.length ascii)) in E.
    rewrite length_app in E. simpl in E. lia.
  - apply forallb_rev. exact Hall.
Qed.

(** The base name of anything that ends in a separator-free name. *)
Lemma Base_of_name (rest : list ascii) (path name : string) :
  plain_name name = true ->
  filepath.at_end_or_sep rest = true ->
  rev (list_ascii_of_string path) = rev (list_ascii_of_string name) ++ rest ->
  filepath.Base path = name.
Proof.
  intros Hname Hrest Hpath.
  destruct (plain_name_chars name Hname) as (Hne & Hrev & Hall).
  rewrite Base_of_nonempty.
  - rewrite Hpath, (strip_trailing_name _ _ Hrev Hall),
      (last_element_app _ _ Hall Hrest).
    destruct (rev (list_ascii_of_string name)) as [|c l] eqn:E; [contradiction|].
    rewrite <- E, rev_involutive. apply string_of_list_ascii_of_string.
  - intros E. rewrite E in Hpath. simpl in Hpath.
    destruct (rev (list_ascii_of_string name)); [contradiction|discriminate].
Qed.

(** [Dir] and [Base] of a path that ends in a file name, and of a bare
    file name. *)
Lemma Dir_Base_of_name (name : string) :
  plain_name name = true ->
  (forall dir : string,
     filepath.Base (dir ++ "/" ++ name) = name
     /\ filepath.Dir (dir ++ "/" ++ name) = filepath.Clean (dir ++ "/"))
  /\ filepath.Base name = name
  /\ filepath.Dir name = "."%string.
Proof.
  intros Hname.
  destruct (plain_name_chars name Hname) as (Hne & Hrev & Hall).
  assert (Hsplit : forall d : string,
             rev (list_ascii_of_string (d ++ "/" ++ name))
             = rev (list_ascii_of_string name)
               ++ filepath.Separator :: rev (list_ascii_of_string d)).
  { intros d. rewrite !list_ascii_of_string_app. simpl list_ascii_of_string.
    rewrite rev_app_distr. simpl rev. rewrite <- app_assoc. reflexivity. }
  split; [|split].
  - intros d. split.
    + apply (Base_of_name _ _ _ Hname) with (2 := Hsplit d). reflexivity.
    + unfold filepath.Dir. rewrite Hsplit.
      rewrite (drop_last_element_app _ _ Hall) by reflexivity.
      simpl rev. rewrite rev_involutive, string_of_list_ascii_app.
      rewrite string_of_list_ascii_of_string. reflexivity.
  - apply (Base_of_name [] _ _ Hname); [reflexivity|].
    rewrite app_nil_r. reflexivity.
  - unfold filepath.Dir.
    rewrite <- (app_nil_r (rev (list_ascii_of_string name))).
    rewrite (drop_last_element_app _ _ Hall) by reflexivity. reflexivity.
Qed.

(** X5. How the path is split. For a path of the form dir/name, where
    name is not empty and has no slash, the base is name and the
    directory is the cleaned dir/, so the goroutine filters on that
    cleaned directory, a slash and name.  For a bare name the directory is
    the dot, and the goroutine filters on ./name; for /name the directory
    is the root, and the goroutine filters on //name. *)
Theorem watched_path_split (dir name : string) :
  plain_name name = true ->
  (filepath.Base (dir ++ "/" ++ name) = name
   /\ filepath.Dir (dir ++ "/" ++ name) = filepath.Clean (dir ++ "/")
   /\ watched (monitor_of (dir ++ "/" ++ name))
      = (filepath.Clean (dir ++ "/") ++ "/" ++ name)%string)
  /\ (filepath.Base name = name
      /\ filepath.Dir name = "."%string
      /\ watched (monitor_of name) = ("./" ++ name)%string)
  /\ watched (monitor_of ("/" ++ name)) = ("//" ++ name)%string.
Proof.
  intros Hname.
  destruct (Dir_Base_of_name name Hname) as (Hsplit & Hbase0 & Hdir0).
  destruct (Hsplit dir) as [Hbase Hdir].
  destruct (Hsplit EmptyString) as [Hbase1 Hdir1].
  unfold watched, monitor_of. cbn [pathDir pathBase].
  split; [|split].
  - rewrite Hbase, Hdir. auto.
  - rewrite Hbase0, Hdir0. auto.
  - change ("/" ++ name)%string with ("" ++ "/" ++ name)%string.
    rewrite Hbase1, Hdir1. reflexivity.
Qed.

(** ** More on the loader and the goroutine *)

Section More.

Context {Doc Handler Logger : Type} `{!Document Doc}.

Abbreviation Config := (Config Doc Handler Logger).
Abbreviation Effect := (Effect Doc Handler Logger).
Abbreviation Step := (Step Handler).

(** The returns of [ReadConfigFile], one goal each. *)
Ltac by_return w path monitor :=
  rewrite ?ReadConfigFile_eq; cbv zeta;
  destruct (PathExists w path) eqn:Hex; cbn [negb];
  [ destruct (ReadFile w path) as [content0|e0] eqn:Hrd;
    [ destruct (yaml_Unmarshal_addr content0 nil) as [d0 [e0|]] eqn:Hum;
      cbn [fst snd];
      [ | destruct monitor;
          [ destruct (NewWatcher w) as [e0|] eqn:Hnw;
            [ | destruct (watcher_Add w (filepath.Dir path)) as [e0|] eqn:Hadd ]
          | ] ]
    | ]
  | ]; cbn [fst snd app].

(** X6. An event that names the configuration path itself is discarded
    when that path is a bare file name or a file directly under the
    root, because the goroutine compares with ./name and //name; the
    event named ./name starts a cycle for the bare name. *)
Theorem own_name_is_filtered (name : string) (conf : Config) (op : nat)
    (w : World) :
  plain_name name = true ->
  iteration (monitor_of name) conf (case_Event {| Name := name; Op := op |}) w
  = (conf, [])
  /\ iteration (monitor_of ("/" ++ name)) conf
       (case_Event {| Name := ("/" ++ name)%string; Op := op |}) w
     = (conf, [])
  /\ exists t,
       snd (iteration (monitor_of name) conf
              (case_Event {| Name := ("./" ++ name)%string; Op := op |}) w)
       = Sleep Second :: Read name :: t.
Proof.
  intros Hname.
  destruct (Dir_Base_of_name name Hname) as (Hsplit & Hbase0 & Hdir0).
  destruct (Hsplit EmptyString) as [Hbase1 Hdir1].
  assert (Hbare : watched (monitor_of name) = ("./" ++ name)%string).
  { unfold watched, monitor_of. cbn [pathDir pathBase].
    rewrite Hbase0, Hdir0. reflexivity. }
  assert (Hroot : watched (monitor_of ("/" ++ name)) = ("//" ++ name)%string).
  { unfold watched, monitor_of. cbn [pathDir pathBase].
    change ("/" ++ name)%string with ("" ++ "/" ++ name)%string.
    rewrite Hbase1, Hdir1. reflexivity. }
  split; [|split].
  - apply iteration_rejected. cbn [Name]. rewrite Hbare. intros E.
    apply (f_equal String.length) in E. rewrite length_append in E.
    simpl in E. lia.
  - apply iteration_rejected. cbn [Name]. rewrite Hroot. intros E.
    apply (f_equal String.length) in E. rewrite !length_append in E.
    simpl in E. lia.
  - rewrite iteration_accepted by (cbn [Name]; symmetry; exact Hbare).
    cbn [snd configPath monitor_of]. eexists. reflexivity.
Qed.

(** X1. Registering handlers one after the other appends them in that
    order, keeps a handler that is registered twice twice, leaves the
    document and the logger alone, and never returns an error. *)
Theorem RegisterHandler_sequence (conf : Config) (hs : list Handler) :
  handlers (register_all conf hs) = handlers conf ++ hs
  /\ api_Config (register_all conf hs) = api_Config conf
  /\ logger (register_all conf hs) = logger conf
  /\ List.length (handlers (register_all conf hs))
     = List.length (handlers conf) + List.length hs
  /\ forall h, snd (RegisterHandler conf h) = None.
Proof.
  assert (H : handlers (register_all conf hs) = handlers conf ++ hs
              /\ api_Config (register_all conf hs) = api_Config conf
              /\ logger (register_all conf hs) = logger conf).
  { revert conf. induction hs as [|h hs IH]; intros conf.
    - cbn. rewrite app_nil_r. auto.
    - unfold register_all in *. cbn [fold_left].
      destruct (IH (fst (RegisterHandler conf h))) as (Hh & Hd & Hl).
      rewrite Hh, Hd, Hl. cbn. rewrite <- app_assoc. auto. }
  destruct H as (Hh & Hd & Hl).
  split; [exact Hh|]. split; [exact Hd|]. split; [exact Hl|]. split.
  - rewrite Hh. apply length_app.
  - reflexivity.
Qed.

(** X2. [parseConfig] reads the file once. It returns no error exactly
    when the file could be read and decoded without error. An error
    that says the read failed comes from a failed read, which leaves the
    target untouched; an error that says the parse failed comes from the
    decoder, whose target is what the decoder left. *)
Theorem parseConfig_contract (path : string)
    (unmarshal : string -> Doc -> Doc * option string) (target : Doc)
    (w : World) :
  let r := fst (parseConfig (Handler := Handler) (Logger := Logger)
                  path unmarshal target w) in
  snd (parseConfig (Handler := Handler) (Logger := Logger)
         path unmarshal target w) = [Read path]
  /\ (snd r = None <->
      exists content, ReadFile w path = inl content
                      /\ snd (unmarshal content target) = None)
  /\ (forall e, snd r = Some ("Failed to read file content: " ++ e)%string <->
                ReadFile w path = inr e)
  /\ (forall e, ReadFile w path = inr e -> fst r = target)
  /\ (forall e, snd r = Some ("Failed to parse yaml: " ++ e)%string <->
                exists content, ReadFile w path = inl content
                                /\ snd (unmarshal content target) = Some e)
  /\ (forall content, ReadFile w path = inl content ->
        fst r = fst (unmarshal content target)).
Proof.
  cbv zeta. rewrite parseConfig_eq. cbn [fst snd].
  split; [reflexivity|].
  destruct (ReadFile w path) as [content|e0]; cbn [fst snd].
  - destruct (snd (unmarshal content target)) as [e1|] eqn:He; cbn [option_map].
    + split; [|split; [|split; [|split]]].
      * split; [discriminate|]. intros (c & Hc & Hn). injection Hc as <-.
        congruence.
      * intros e. split; discriminate.
      * discriminate.
      * intros e. split.
        -- intros H. injection H as <-. exists content. auto.
        -- intros (c & Hc & Hs). injection Hc as <-. congruence.
      * intros c Hc. injection Hc as <-. reflexivity.
    + split; [|split; [|split; [|split]]].
      * split; [|reflexivity]. intros _. exists content. auto.
      * intros e. split; discriminate.
      * discriminate.
      * intros e. split; [discriminate|].
        intros (c & Hc & Hs). injection Hc as <-. congruence.
      * intros c Hc. injection Hc as <-. reflexivity.
  - split; [|split; [|split; [|split]]].
    + split; [discriminate|]. intros (c & Hc & _). discriminate.
    + intros e. split.
      * intros H. injection H as <-. reflexivity.
      * intros H. injection H as <-. reflexivity.
    + reflexivity.
    + intros e. split.
      * discriminate.
      * intros (c & Hc & _). discriminate.
    + discriminate.
Qed.

(** X3. A file that is there but cannot be read fails the load with the
    read error and no store, after the log line and the one read; no
    watcher is made, monitored or not. *)
Theorem Load_unreadable (path : string) (monitor : bool) (lg : Logger)
    (w : World) (e : string) :
  PathExists w path = true ->
  ReadFile w path = inr e ->
  ReadConfigFile (Handler := Handler) path monitor lg w
  = ((None, Some ("Failed to read file content: " ++ e)%string),
     [Probe path; Info "Parsing configuration" [("path"%string, path)];
      Read path]).
Proof.
  intros Hex Hrd. rewrite ReadConfigFile_eq. cbv zeta. rewrite Hex, Hrd.
  reflexivity.
Qed.

(** X4. The goroutine is started last, only by a monitored load, and only
    when the load returns a store: a monitored load returns a store
    exactly when it has started the goroutine for the path, and whatever
    directory is added to the watcher is [filepath.Dir] of the path.  An
    unmonitored load makes no watcher, watches nothing and starts no
    goroutine. *)
Theorem goroutine_iff_store (path : string) (monitor : bool) (lg : Logger)
    (w : World) :
  let r := ReadConfigFile (Handler := Handler) path monitor lg w in
  (forall m, In (Go m) (snd r) ->
     monitor = true /\ m = monitor_of path
     /\ (exists conf, fst r = (Some conf, None))
     /\ exists t0, snd r = t0 ++ [Go m] /\ forall m', ~ In (Go m') t0)
  /\ (monitor = true -> fst (fst r) <> None -> In (Go (monitor_of path)) (snd r))
  /\ (forall d, In (Watcher_add d) (snd r) -> d = filepath.Dir path)
  /\ (monitor = false ->
      ~ In Watcher_new (snd r)
      /\ (forall d, ~ In (Watcher_add d) (snd r))
      /\ forall m, ~ In (Go m) (snd r)).
Proof.
  cbv zeta. split; [|split; [|split]].
  - intros m Hin. pose proof (ReadConfigFile_Go _ _ _ _ _ Hin) as Hm. subst m.
    revert Hin. by_return w path monitor; simpl; intros Hin;
      repeat (destruct Hin as [Hin|Hin]; try discriminate); try contradiction.
    split; [reflexivity|]. split; [reflexivity|]. split; [eexists; reflexivity|].
    eexists [_; _; _; _; _; _]. split; [reflexivity|].
    intros m' H. simpl in H.
    repeat (destruct H as [H|H]; try discriminate). contradiction.
  - by_return w path monitor; simpl; intros Hm Hs;
      try discriminate; try congruence; auto 10.
  - intros d. by_return w path monitor; simpl; intros Hin;
      repeat (destruct Hin as [Hin|Hin]; try discriminate); try contradiction;
      injection Hin as <-; reflexivity.
  - intros ->. rewrite ReadConfigFile_eq. cbv zeta.
    destruct (PathExists w path); cbn [negb];
      [destruct (ReadFile w path) as [content|e];
       [destruct (snd (yaml_Unmarshal_addr content nil))|]|];
      simpl; (split; [|split]); intros; intro Hin;
      repeat (destruct Hin as [Hin|Hin]; try discriminate); contradiction.
Qed.

(** X7. When the watch can be set up, asking for monitoring changes
    nothing of what the load returns, store or error; what the monitored
    load does more comes after all that the unmonitored load does. *)
Theorem monitoring_keeps_result (path : string) (lg : Logger) (w : World) :
  NewWatcher w = None ->
  watcher_Add w (filepath.Dir path) = None ->
  fst (ReadConfigFile (Handler := Handler) path true lg w)
  = fst (ReadConfigFile (Handler := Handler) path false lg w)
  /\ exists t, snd (ReadConfigFile (Handler := Handler) path true lg w)
               = snd (ReadConfigFile (Handler := Handler) path false lg w) ++ t.
Proof.
  intros Hnew Hadd. rewrite !ReadConfigFile_eq. cbv zeta. rewrite Hnew, Hadd.
  destruct (PathExists w path); cbn [negb];
    [destruct (ReadFile w path) as [content|e];
     [destruct (snd (yaml_Unmarshal_addr content nil))|]|];
    cbn [fst snd]; (split; [reflexivity|]);
    try (exists []; rewrite app_nil_r; reflexivity).
  eexists. reflexivity.
Qed.

(** The calls of one iteration: none, or one per handler of the store,
    each with the store the iteration leaves. *)
Lemma iteration_calls (m : Monitor) (conf : Config) (s : Select) (w : World) :
  calls (snd (iteration m conf s w)) = []
  \/ calls (snd (iteration m conf s w))
     = map (fun h => (h, fst (iteration m conf s w))) (handlers conf).
Proof.
  destruct s as [ev|err]; [|left; reflexivity].
  destruct (String.eqb_spec (Name ev) (watched m)) as [E|N].
  - rewrite (iteration_accepted m conf ev w E). cbn [fst snd calls].
    rewrite calls_app, calls_failure_log. cbn [app].
    unfold notification. destruct (String.eqb _ _); [left; reflexivity|].
    right. cbn [calls]. apply calls_map_Call.
  - rewrite (iteration_rejected m conf ev w N). left. reflexivity.
Qed.

Lemma iteration_keeps (m : Monitor) (conf : Config) (s : Select) (w : World) :
  handlers (fst (iteration m conf s w)) = handlers conf
  /\ logger (fst (iteration m conf s w)) = logger conf.
Proof. rewrite iteration_store. split; reflexivity. Qed.

(** X8. Whatever the goroutine receives, the store keeps its logger, and
    its handlers are the ones it had followed by the ones registered
    meanwhile, in order: the goroutine never adds, drops or reorders a
    handler. *)
Theorem run_keeps_handlers (m : Monitor) (steps : list Step) (conf : Config) :
  handlers (fst (run m conf steps)) = handlers conf ++ registered steps
  /\ logger (fst (run m conf steps)) = logger conf.
Proof.
  revert conf. induction steps as [|[s w|h] steps IH]; intros conf.
  - cbn. rewrite app_nil_r. auto.
  - cbn [run registered].
    destruct (iteration_keeps m conf s w) as [Hh Hl].
    destruct (iteration m conf s w) as [conf' t1]. cbn [fst] in Hh, Hl.
    destruct (IH conf') as [IHh IHl].
    destruct (run m conf' steps) as [conf'' t2]. cbn [fst] in *.
    rewrite IHh, IHl, Hh, Hl. auto.
  - cbn [run registered].
    destruct (IH (fst (RegisterHandler conf h))) as [IHh IHl].
    rewrite IHh, IHl. cbn. rewrite <- app_assoc. auto.
Qed.

(** X9. Every handler call of a run is the call of a handler that the
    store had at the start or that was registered during the run, and it
    passes a store in which that handler is registered and whose logger
    is the store's. *)
Theorem only_registered_are_called (m : Monitor) (steps : list Step)
    (conf : Config) (h : Handler) (c : Config) :
  In (h, c) (calls (snd (run m conf steps))) ->
  In h (handlers conf ++ registered steps)
  /\ In h (handlers c)
  /\ logger c = logger conf.
Proof.
  revert conf. induction steps as [|[s w|h0] steps IH]; intros conf.
  - intros [].
  - cbn [run registered].
    pose proof (iteration_calls m conf s w) as Hc.
    destruct (iteration_keeps m conf s w) as [Hh Hl].
    destruct (iteration m conf s w) as [conf' t1]. cbn [fst snd] in Hc, Hh, Hl.
    specialize (IH conf').
    destruct (run m conf' steps) as [conf'' t2]. cbn [fst snd] in *.
    rewrite calls_app. intros Hin. apply in_app_or in Hin.
    destruct Hin as [Hin|Hin].
    + destruct Hc as [Hc|Hc]; rewrite Hc in Hin; [destruct Hin|].
      apply in_map_iff in Hin. destruct Hin as (h' & Heq & Hin).
      injection Heq as -> ->.
      split; [apply in_or_app; left; exact Hin|].
      split; [rewrite Hh; exact Hin|exact Hl].
    + destruct (IH Hin) as (H1 & H2 & H3). rewrite Hh in H1. rewrite Hl in H3.
      auto.
  - cbn [run registered]. intros Hin.
    destruct (IH _ Hin) as (H1 & H2 & H3). cbn in H1, H3.
    rewrite <- app_assoc in H1. auto.
Qed.

(** X10. Discarded events leave no mark: a run without them is the same
    run, store and effects.  Watcher errors leave only their log lines:
    a run with only the accepted events and the registrations ends in the
    same store with the same handler calls and the same pauses. *)
Theorem irrelevant_steps (m : Monitor) (steps : list Step) (conf : Config) :
  run m conf (filter (fun st => negb (discarded m st)) steps) = run m conf steps
  /\ fst (run m conf (filter (relevant m) steps)) = fst (run m conf steps)
  /\ calls (snd (run m conf (filter (relevant m) steps)))
     = calls (snd (run m conf steps))
  /\ sleeps (snd (run m conf (filter (relevant m) steps)))
     = sleeps (snd (run m conf steps)).
Proof.
  split.
  - revert conf. induction steps as [|[[ev|err] w|h] steps IH]; intros conf;
      cbn [filter discarded negb].
    + reflexivity.
    + destruct (String.eqb_spec (Name ev) (watched m)) as [E|N]; cbn [negb].
      * cbn [run]. destruct (iteration m conf (case_Event ev) w) as [conf' t1].
        rewrite IH. reflexivity.
      * cbn [run]. rewrite (iteration_rejected m conf ev w N), IH.
        destruct (run m conf steps). reflexivity.
    + cbn [run]. destruct (iteration m conf (case_Error err) w) as [conf' t1].
      rewrite IH. reflexivity.
    + cbn [run]. apply IH.
  - revert conf. induction steps as [|[[ev|err] w|h] steps IH]; intros conf;
      cbn [filter relevant].
    + auto.
    + destruct (String.eqb_spec (Name ev) (watched m)) as [E|N].
      * cbn [run]. destruct (iteration m conf (case_Event ev) w) as [conf' t1].
        destruct (IH conf') as (H1 & H2 & H3).
        destruct (run m conf' (filter (relevant m) steps)) as [c1 u1].
        destruct (run m conf' steps) as [c2 u2]. cbn [fst snd] in *.
        rewrite !calls_app, !sleeps_app, H1, H2, H3. auto.
      * cbn [run]. rewrite (iteration_rejected m conf ev w N).
        destruct (IH conf) as (H1 & H2 & H3).
        destruct (run m conf steps) as [c2 u2]. cbn [fst snd app] in *. auto.
    + cbn [run].
      change (iteration m conf (case_Error err) w)
        with (conf, [Error (Doc := Doc) (Handler := Handler) (Logger := Logger)
                       "Got bad file notification" [("error"%string, err)]]).
      destruct (IH conf) as (H1 & H2 & H3).
      destruct (run m conf steps) as [c2 u2]. cbn [fst snd app calls sleeps] in *.
      auto.
    + cbn [run]. apply IH.
Qed.

(** X11. A handler registered between two cycles that both see a change
    is not called in the first and is called, last, in the second: the
    first cycle calls the handlers the store had, the second those and
    the new one, each with the store of its own cycle. *)
Theorem late_registration (m : Monitor) (conf : Config) (h : Handler)
    (ev1 ev2 : Event) (w1 w2 : World) :
  Name ev1 = watched m ->
  Name ev2 = watched m ->
  let c1 := fst (iteration m conf (case_Event ev1) w1) in
  let c2 := fst (iteration m (fst (RegisterHandler c1 h)) (case_Event ev2) w2) in
  yaml_Marshal (api_Config conf) <> yaml_Marshal (api_Config c1) ->
  yaml_Marshal (api_Config c1) <> yaml_Marshal (api_Config c2) ->
  calls (snd (run m conf
                [Recv (case_Event ev1) w1; Registers h; Recv (case_Event ev2) w2]))
  = map (fun x => (x, c1)) (handlers conf)
    ++ map (fun x => (x, c2)) (handlers conf ++ [h]).
Proof.
  intros H1 H2. cbv zeta. intros Hd1 Hd2. cbn [run].
  pose proof (iteration_accepted m conf ev1 w1 H1) as E1. cbv zeta in E1.
  rewrite E1 in Hd1, Hd2 |- *. cbn [fst] in Hd1, Hd2 |- *.
  set (c1 := set_api_Config conf _) in *.
  pose proof (iteration_accepted m (fst (RegisterHandler c1 h)) ev2 w2 H2) as E2.
  cbv zeta in E2. rewrite E2 in Hd2 |- *. cbn [fst] in Hd2.
  set (c2 := set_api_Config (fst (RegisterHandler c1 h)) _) in *.
  cbn [snd app]. rewrite app_nil_r.
  rewrite (notification_changed m (api_Config conf) c1) by exact Hd1.
  rewrite (notification_changed m _ c2) by exact Hd2.
  repeat first [ rewrite calls_app | rewrite calls_failure_log
               | rewrite calls_map_Call | progress cbn [calls app fst] ].
  reflexivity.
Qed.

End More.

(** ** More on the small document *)

Module MoreOnMiniYaml.

Import MiniYaml.

#[local] Existing Instance document.

(** X5 on the path used above. *)
Lemma watched_path_split_witness :
  plain_name "config.yaml" = true
  /\ filepath.Base path = "config.yaml"%string
  /\ filepath.Dir path = "/etc/askgod"%string
  /\ watched (monitor_of "config.yaml") = "./config.yaml"%string
  /\ watched (monitor_of "/config.yaml") = "//config.yaml"%string.
Proof.
  assert (Hname : plain_name "config.yaml" = true) by reflexivity.
  destruct (watched_path_split "/etc/askgod" "config.yaml" Hname)
    as ((Hbase & Hdir & _) & (_ & _ & Hbare) & Hroot).
  exact (conj Hname (conj Hbase (conj Hdir (conj Hbare Hroot)))).
Defined.

(** X6 on the file name used above. *)
Lemma own_name_is_filtered_witness :
  plain_name "config.yaml" = true
  /\ iteration (monitor_of "config.yaml") store
       (case_Event {| Name := "config.yaml"; Op := 2 |}) (file doc_5_7)
     = (store, [])
  /\ iteration (monitor_of "/config.yaml") store
       (case_Event {| Name := "/config.yaml"; Op := 2 |}) (file doc_5_7)
     = (store, []).
Proof.
  assert (Hname : plain_name "config.yaml" = true) by reflexivity.
  destruct (own_name_is_filtered "config.yaml" store 2 (file doc_5_7) Hname)
    as (Hbare & Hroot & _).
  exact (conj Hname (conj Hbare Hroot)).
Defined.

(** X3 on a file whose read is refused. *)
Lemma Load_unreadable_witness :
  PathExists unreadable path = true
  /\ ReadFile unreadable path = inr "permission denied"%string
  /\ fst (ReadConfigFile (Handler := nat) path true tt unreadable)
     = (None, Some "Failed to read file content: permission denied"%string).
Proof.
  assert (Hex : PathExists unreadable path = true) by reflexivity.
  assert (Hrd : ReadFile unreadable path = inr "permission denied"%string)
    by reflexivity.
  refine (conj Hex (conj Hrd _)).
  rewrite (Load_unreadable (Handler := nat) path true tt unreadable _ Hex Hrd).
  reflexivity.
Defined.

(** X7 on a load that succeeds. *)
Lemma monitoring_keeps_result_witness :
  NewWatcher (file doc_1_2) = None
  /\ watcher_Add (file doc_1_2) (filepath.Dir path) = None
  /\ fst (ReadConfigFile (Handler := nat) path true tt (file doc_1_2))
     = fst (ReadConfigFile (Handler := nat) path false tt (file doc_1_2)).
Proof.
  assert (Hnew : NewWatcher (file doc_1_2) = None) by reflexivity.
  assert (Hadd : watcher_Add (file doc_1_2) (filepath.Dir path) = None)
    by reflexivity.
  destruct (monitoring_keeps_result (Handler := nat) path tt (file doc_1_2)
              Hnew Hadd) as [Hsame _].
  exact (conj Hnew (conj Hadd Hsame)).
Defined.

(** X9 on a change of b from 2 to 7: the second handler's call. *)
Lemma only_registered_are_called_witness :
  In (20, set_api_Config store (doc_of 5 7))
     (calls (snd (run monitor store
                    [Recv (Handler := nat) (case_Event event) (file doc_5_7)])))
  /\ In 20 (handlers store ++ registered [Recv (Handler := nat) (case_Event event)
                                            (file doc_5_7)])
  /\ In 20 (handlers (set_api_Config store (doc_of 5 7))).
Proof.
  assert (Hin : In (20, set_api_Config store (doc_of 5 7))
                  (calls (snd (run monitor store
                                 [Recv (Handler := nat) (case_Event event)
                                    (file doc_5_7)]))))
    by (vm_compute; auto).
  destruct (only_registered_are_called monitor _ store 20 _ Hin) as (H1 & H2 & _).
  exact (conj Hin (conj H1 H2)).
Defined.

(** X11: the file changes, a third handler is registered, the file
    changes back. *)
Lemma late_registration_witness :
  Name event = watched monitor
  /\ calls (snd (run monitor store
                   [Recv (case_Event event) (file doc_5_7); Registers 30;
                    Recv (case_Event event) (file doc_1_2)]))
     = [(10, set_api_Config store (doc_of 5 7));
        (20, set_api_Config store (doc_of 5 7));
        (10, fst (RegisterHandler store 30));
        (20, fst (RegisterHandler store 30));
        (30, fst (RegisterHandler store 30))].
Proof.
  assert (Hname : Name event = watched monitor) by reflexivity.
  split; [exact Hname|].
  rewrite (late_registration monitor store 30 event event (file doc_5_7)
             (file doc_1_2) Hname Hname);
    [reflexivity | vm_compute; discriminate | vm_compute; discriminate].
Defined.

End MoreOnMiniYaml.
